(** * CryptoVerde: market-data pipeline and analytics engine

    A shallow embedding of the Python sources
    ([data_processor.py], [indicators.py], [api_handler.py],
    [database.py], [etl_pipeline.py]) and the properties of the
    pipeline that the design document states about them.

    Conventions of the embedding:
    - a value that came out of [response.json()] is a [json];
    - a Python [float] is a binary64 [float] of the kernel, a Python
      [int] is a [Z];
    - a computation that can raise returns an [exc];
    - a pandas [Series] of finite prices is a [list Q]; the series an
      indicator returns has cells of type [Indicators.num], which adds
      NaN and the two infinities; binary64 rounding of the indicator
      arithmetic is not modelled;
    - what lies outside the process (the HTTP answers, the clock, the
      datastore) is an argument of the function that meets it. *)

From Stdlib Require Import ZArith QArith Qminmax Floats SpecFloat.
From Stdlib Require Import String Ascii List DecimalString Lia Sorted Permutation.
From Stdlib Require Uint63 DecimalPos DecimalZ.
From Stdlib Require Import Lqa.
From stdpp Require Import gmap strings list.

Set Warnings "-register-all".
#[local] Open Scope Z_scope.

(* ===================================================================== *)
(** * Part I. The program                                                 *)
(* ===================================================================== *)

(** ** Python values and coercions *)

Module Py.

(** What [json.loads] produces.  Objects are dictionaries with string
    keys; the parser accepts [Infinity] and [NaN], so a [JFloat] can
    hold any binary64 value. *)
Inductive json : Type :=
  | JNull
  | JBool (b : bool)
  | JInt (z : Z)
  | JFloat (f : float)
  | JStr (s : string)
  | JList (l : list json)
  | JDict (m : gmap string json).

(** Result of a computation that may raise an exception.  Every
    exception the modelled code can meet derives from [Exception], so
    one constructor is enough for the [except Exception] handlers. *)
Inductive exc (A : Type) : Type :=
  | Ok (a : A)
  | Raise.
Arguments Ok {A} a.
Arguments Raise {A}.

Definition bind {A B} (x : exc A) (k : A -> exc B) : exc B :=
  match x with
  | Ok a => k a
  | Raise => Raise
  end.

Definition of_option {A} (o : option A) : exc A :=
  match o with
  | Some a => Ok a
  | None => Raise
  end.

(** The parts of the interpreter that the code reaches but whose exact
    text-level behaviour no property below depends on: parsing of
    numerals inside [int(str)] and [float(str)], and the [repr] text
    of floats and containers.  A float prints as at least one
    character, hence the head and the tail. *)
Record runtime : Type := {
  parse_int : string -> option Z;
  parse_float : string -> option float;
  float_text : float -> ascii * string;
  seq_text : list json -> string;
  map_text : gmap string json -> string
}.

(** [bool(v)]: the truth value used by [not v] and [v or d]. *)
Definition truthy (v : json) : bool :=
  match v with
  | JNull => false
  | JBool b => b
  | JInt z => negb (z =? 0)
  | JFloat f => negb (PrimFloat.eqb f 0%float)
  | JStr s => negb (String.eqb s "")
  | JList l => match l with [] => false | _ => true end
  | JDict m => negb (bool_decide (m = ∅))
  end.

(** [v or d] *)
Definition py_or (v d : json) : json := if truthy v then v else d.

(** [coin.get(k)] and [coin.get(k, d)] on a dictionary. *)
Definition dict_get (m : gmap string json) (k : string) (d : json) : json :=
  default d (m !! k).

(** [v.get(k, d)]: an [AttributeError] on anything but a dictionary. *)
Definition get (v : json) (k : string) (d : json) : exc json :=
  match v with
  | JDict m => Ok (dict_get m k d)
  | _ => Raise
  end.

(** [isinstance(v, dict)] *)
Definition is_dict (v : json) : bool :=
  match v with
  | JDict _ => true
  | _ => false
  end.

(** [str(v)] *)
Definition py_str (rt : runtime) (v : json) : string :=
  match v with
  | JNull => "None"
  | JBool true => "True"
  | JBool false => "False"
  | JInt z => NilZero.string_of_int (Z.to_int z)
  | JFloat f => let '(c, s) := float_text rt f in String c s
  | JStr s => s
  | JList l => "[" ++ seq_text rt l ++ "]"
  | JDict m => "{" ++ map_text rt m ++ "}"
  end.

(** [s.upper()] on the ASCII letters. *)
Definition upper_ascii (c : ascii) : ascii :=
  let n := nat_of_ascii c in
  if (97 <=? n)%nat && (n <=? 122)%nat then ascii_of_nat (n - 32) else c.

Fixpoint upper (s : string) : string :=
  match s with
  | EmptyString => EmptyString
  | String c s' => String (upper_ascii c) (upper s')
  end.

(** [s or d] on strings. *)
Definition str_or (s d : string) : string :=
  if String.eqb s "" then d else s.

(** Conversion of an [int] to a [float] as arithmetic with a float
    operand does it: correctly rounded, [OverflowError] when the
    integer is beyond the binary64 range. *)
Definition Z2F (z : Z) : float := SF2Prim (binary_normalize prec emax z 0 false).

Definition int_to_float (z : Z) : exc float :=
  let f := Z2F z in
  if PrimFloat.is_infinity f then Raise else Ok f.

(** [int(f)] on a float: truncation toward zero, [OverflowError] on an
    infinity and [ValueError] on NaN. *)
Definition float_to_int (f : float) : exc Z :=
  match Prim2SF f with
  | S754_zero _ => Ok 0
  | S754_finite s m e =>
      let mag := if 0 <=? e then Z.pos m * 2 ^ e else Z.pos m / 2 ^ (- e) in
      Ok (if s then - mag else mag)
  | S754_infinity _ => Raise
  | S754_nan => Raise
  end.

(** A binary64 value whose sign bit is clear, or NaN. *)
Definition sign_clear (x : spec_float) : Prop :=
  match x with
  | S754_nan => True
  | S754_zero s | S754_infinity s | S754_finite s _ _ => s = false
  end.

(** [float(v)] *)
Definition py_float (rt : runtime) (v : json) : exc float :=
  match v with
  | JBool b => Ok (if b then 1%float else 0%float)
  | JInt z => int_to_float z
  | JFloat f => Ok f
  | JStr s => of_option (parse_float rt s)
  | JNull | JList _ | JDict _ => Raise
  end.

(** [int(v)] *)
Definition py_int (rt : runtime) (v : json) : exc Z :=
  match v with
  | JBool b => Ok (if b then 1 else 0)
  | JInt z => Ok z
  | JFloat f => float_to_int f
  | JStr s => of_option (parse_int rt s)
  | JNull | JList _ | JDict _ => Raise
  end.

(** [for x in v]: the items a [for] loop visits, [TypeError] on a
    value that is not iterable.  A dictionary yields its keys, a
    string its characters. *)
Definition chars (s : string) : list json :=
  (fun c => JStr (String c EmptyString)) <$> list_ascii_of_string s.

Definition py_iter (v : json) : exc (list json) :=
  match v with
  | JList l => Ok l
  | JDict m => Ok ((fun kv => JStr kv.1) <$> map_to_list m)
  | JStr s => Ok (chars s)
  | JNull | JBool _ | JInt _ | JFloat _ => Raise
  end.

(** A runtime in which no text parses as a number and every [repr] is
    as short as it can be; the examples run on it. *)
Definition plain_runtime : runtime :=
  {| parse_int := fun _ => None;
     parse_float := fun _ => None;
     float_text := fun _ => ("0"%char, EmptyString);
     seq_text := fun _ => EmptyString;
     map_text := fun _ => EmptyString |}.

End Py.

(** ** data_processor.py *)

Module DataProcessor.
Import Py.

(** One entry of the list [process] returns.  [extracted_at] holds
    the instant [datetime.now()] read, in microseconds; the ISO text
    the code stores is its rendering. *)
Record coin : Type := {
  coin_id : string;
  symbol : string;
  name : string;
  current_price : float;
  market_cap : Z;
  total_volume : Z;
  price_change_24h : float;
  market_cap_rank : Z;
  volatility_score : float;
  extracted_at : Z
}.

(** The inner [try]: [abs(price_change_24h) * volume / 1_000_000],
    replaced by [0.0] when [pd.isna] holds of it or when evaluating it
    raises (the bare [except]). *)
Definition raw_volatility (price_change : float) (volume : Z) : exc float :=
  bind (int_to_float volume) (fun v =>
  bind (int_to_float 1000000) (fun m =>
  Ok (PrimFloat.div (PrimFloat.mul (PrimFloat.abs price_change) v) m))).

Definition volatility (price_change : float) (volume : Z) : float :=
  match raw_volatility price_change volume with
  | Ok v => if PrimFloat.is_nan v then 0%float else v
  | Raise => 0%float
  end.

(** What one iteration of the loop does to the list being built. *)
Inductive step : Type :=
  | Appended (c : coin)   (* [processed.append(...)] *)
  | Skipped               (* [continue] *)
  | Escaped.              (* an exception left the [except] handler *)

(** The body of the outer [try], up to and including the [append];
    [Ok None] is the [continue] on an empty identifier. *)
Definition try_body (rt : runtime) (timestamp : Z) (c : json)
  : exc (option coin) :=
  bind (get c "id" (JStr "")) (fun v_id =>
  let cid := py_str rt v_id in
  if String.eqb cid "" then Ok None else
  bind (get c "symbol" (JStr "")) (fun v_sym =>
  let sym := str_or (upper (py_str rt v_sym)) "UNKNOWN" in
  bind (get c "name" (JStr "")) (fun v_name =>
  let nm := str_or (py_str rt v_name) "Unknown" in
  bind (get c "current_price" JNull) (fun v_price =>
  bind (py_float rt (py_or v_price (JInt 0))) (fun price =>
  bind (get c "market_cap" JNull) (fun v_cap =>
  bind (py_int rt (py_or v_cap (JInt 0))) (fun cap =>
  bind (get c "total_volume" JNull) (fun v_vol =>
  bind (py_int rt (py_or v_vol (JInt 0))) (fun vol =>
  bind (get c "price_change_percentage_24h" JNull) (fun v_chg =>
  bind (py_float rt (py_or v_chg (JInt 0))) (fun chg =>
  bind (get c "market_cap_rank" JNull) (fun v_rank =>
  bind (py_int rt (py_or v_rank (JInt 999))) (fun rank =>
  Ok (Some {| coin_id := cid;
              symbol := sym;
              name := nm;
              current_price := price;
              market_cap := cap;
              total_volume := vol;
              price_change_24h := chg;
              market_cap_rank := rank;
              volatility_score := volatility chg vol;
              extracted_at := timestamp |})))))))))))))).

(** The [except Exception as e] handler: its log line evaluates
    [coin.get('name', 'unknown')] before the [continue]. *)
Definition handler (c : json) : step :=
  match get c "name" (JStr "unknown") with
  | Ok _ => Skipped
  | Raise => Escaped
  end.

Definition process_coin (rt : runtime) (timestamp : Z) (c : json) : step :=
  match try_body rt timestamp c with
  | Ok (Some r) => Appended r
  | Ok None => Skipped
  | Raise => handler c
  end.

(** The [for] loop, threading the list [processed]. *)
Fixpoint process_loop (rt : runtime) (timestamp : Z)
    (items : list json) (processed : list coin) : exc (list coin) :=
  match items with
  | [] => Ok processed
  | c :: rest =>
      match process_coin rt timestamp c with
      | Appended r => process_loop rt timestamp rest (processed ++ [r])
      | Skipped => process_loop rt timestamp rest processed
      | Escaped => Raise
      end
  end.

(** [DataProcessor.process(raw_data)]; [raw_data] is what
    [get_top_coins] returned, [None] when the request failed. *)
Definition process (rt : runtime) (timestamp : Z) (raw_data : option json)
  : exc (list coin) :=
  match raw_data with
  | None => Ok []
  | Some v =>
      if negb (truthy v) then Ok []
      else bind (py_iter v) (fun items => process_loop rt timestamp items [])
  end.

(** The record an item contributes to the output, if any. *)
Definition accepted (rt : runtime) (timestamp : Z) (c : json) : option coin :=
  match process_coin rt timestamp c with
  | Appended r => Some r
  | Skipped | Escaped => None
  end.

(** On a dictionary every [coin.get] succeeds, so the body of the
    [try] is the chain of conversions: what the fields of a record that
    came out of it are. *)
Definition fields_of (rt : runtime) (timestamp : Z) (m : gmap string json) (r : coin)
  : Prop :=
  coin_id r = py_str rt (dict_get m "id" (JStr "")) /\
  symbol r = str_or (upper (py_str rt (dict_get m "symbol" (JStr "")))) "UNKNOWN" /\
  name r = str_or (py_str rt (dict_get m "name" (JStr ""))) "Unknown" /\
  py_float rt (py_or (dict_get m "current_price" JNull) (JInt 0)) = Ok (current_price r) /\
  py_int rt (py_or (dict_get m "market_cap" JNull) (JInt 0)) = Ok (market_cap r) /\
  py_int rt (py_or (dict_get m "total_volume" JNull) (JInt 0)) = Ok (total_volume r) /\
  py_float rt (py_or (dict_get m "price_change_percentage_24h" JNull) (JInt 0))
    = Ok (price_change_24h r) /\
  py_int rt (py_or (dict_get m "market_cap_rank" JNull) (JInt 999)) = Ok (market_cap_rank r) /\
  volatility_score r = volatility (price_change_24h r) (total_volume r) /\
  extracted_at r = timestamp.

(** Sample records: a complete one, one with [null] texts, one whose
    product overflows binary64 and one with a negative volume. *)
Definition fields (id : string) (sym nm chg vol : json) : gmap string json :=
  <["id" := JStr id]> (<["symbol" := sym]> (<["name" := nm]>
    (<["price_change_percentage_24h" := chg]> (<["total_volume" := vol]> ∅)))).

Definition record_of (id : string) (sym nm chg vol : json) : json :=
  JDict (fields id sym nm chg vol).

Definition bitcoin : json :=
  record_of "bitcoin" (JStr "btc") (JStr "Bitcoin") (JFloat 2.5) (JInt 4000000).

Definition nameless : json :=
  record_of "x" JNull JNull (JInt 0) (JInt 0).

Definition surging : json :=
  record_of "s" (JStr "s") (JStr "S") (JFloat 0x1p1000) (JInt (2 ^ 100)).

Definition short_sold : json :=
  record_of "n" (JStr "n") (JStr "N") (JFloat 1) (JInt (-1000000)).

End DataProcessor.

(** ** indicators.py *)

Module Indicators.

#[local] Open Scope Q_scope.

(** A cell of a float [Series] that an indicator returns.  Input
    prices are finite, so only the divisions can leave the finite
    values. *)
Inductive num : Type :=
  | Fin (q : Q)
  | PInf
  | NInf
  | NaN.

Definition is_zero (q : Q) : bool := Qeq_bool q 0.
Definition is_pos (q : Q) : bool := negb (Qle_bool q 0).
Definition is_neg (q : Q) : bool := negb (Qle_bool 0 q).

(** Float arithmetic on cells (signed zeros are not distinguished:
    a finite nonzero value over zero is the infinity of its sign). *)
Definition nadd (a b : num) : num :=
  match a, b with
  | NaN, _ | _, NaN => NaN
  | Fin x, Fin y => Fin (x + y)
  | PInf, NInf | NInf, PInf => NaN
  | PInf, _ | _, PInf => PInf
  | NInf, _ | _, NInf => NInf
  end.

Definition nopp (a : num) : num :=
  match a with
  | Fin x => Fin (- x)
  | PInf => NInf
  | NInf => PInf
  | NaN => NaN
  end.

Definition nsub (a b : num) : num := nadd a (nopp b).

Definition ndiv (a b : num) : num :=
  match a, b with
  | NaN, _ | _, NaN => NaN
  | Fin x, Fin y =>
      if is_zero y then
        if is_zero x then NaN else if is_pos x then PInf else NInf
      else Fin (x / y)
  | Fin _, _ => Fin 0
  | _, PInf | _, NInf => NaN
  | PInf, Fin y => if is_neg y then NInf else PInf
  | NInf, Fin y => if is_neg y then PInf else NInf
  end.

(** [s.fillna(d)] and [s.replace(0, np.nan)], cell by cell. *)
Definition fillna (d : Q) (a : num) : num :=
  match a with
  | NaN => Fin d
  | _ => a
  end.

Definition replace_zero_nan (q : Q) : num :=
  if is_zero q then NaN else Fin q.

(** [pd.Series(index=data.index)] and [pd.Series(c, index=data.index)] *)
Definition nan_series (data : list Q) : list num := (fun _ => NaN) <$> data.
Definition const_series (c : Q) (data : list Q) : list num := (fun _ => Fin c) <$> data.

Fixpoint qsum (l : list Q) : Q :=
  match l with
  | [] => 0
  | x :: l' => x + qsum l'
  end.

Definition mean (l : list Q) : Q := qsum l / inject_Z (Z.of_nat (length l)).

(** The points a trailing window of [w] ending at position [i] covers:
    positions [i-w+1 .. i], cut at the start of the series. *)
Definition window_at (w i : nat) (xs : list Q) : list Q :=
  drop (S i - w) (take (S i) xs).

(** [xs.rolling(window=w, min_periods=1).mean()] for [1 <= w] on a
    series without NaN: every position has at least one observation. *)
Definition rolling_mean (w : nat) (xs : list Q) : list Q :=
  (fun i => mean (window_at w i xs)) <$> seq 0 (length xs).

(** [Series.rolling(window, min_periods=1)] validates its arguments and
    raises [ValueError] unless [min_periods <= window]. *)
Definition rolling_ok (window : Z) : bool := (1 <=? window)%Z.

(** [calculate_sma(data, window)]; [None] is Python's [None]. *)
Definition calculate_sma (data : option (list Q)) (window : Z) : list num :=
  match data with
  | None => []
  | Some xs =>
      if (Z.of_nat (length xs) <? window)%Z then nan_series xs
      else if rolling_ok window then Fin <$> rolling_mean (Z.to_nat window) xs
      else (* except: *) nan_series xs
  end.

(** [data.diff()]: NaN first, then the successive differences. *)
Fixpoint diff_from (prev : Q) (xs : list Q) : list (option Q) :=
  match xs with
  | [] => []
  | x :: xs' => Some (x - prev) :: diff_from x xs'
  end.

Definition diff (xs : list Q) : list (option Q) :=
  match xs with
  | [] => []
  | x :: xs' => None :: diff_from x xs'
  end.

(** [delta.where(delta > 0, 0)] and [-delta.where(delta < 0, 0)]: a
    NaN delta fails either comparison and becomes 0. *)
Definition gain_cell (d : option Q) : Q :=
  match d with
  | Some x => if is_pos x then x else 0
  | None => 0
  end.

Definition loss_cell (d : option Q) : Q :=
  match d with
  | Some x => - (if is_neg x then x else 0)
  | None => - 0
  end.

Definition avg_gain (w : nat) (xs : list Q) : list Q :=
  rolling_mean w (gain_cell <$> diff xs).

Definition avg_loss (w : nat) (xs : list Q) : list Q :=
  rolling_mean w (loss_cell <$> diff xs).

(** [rs = gain / loss.replace(0, np.nan)]; [rs = rs.fillna(0)] *)
Definition rs_cell (g l : Q) : num :=
  fillna 0 (ndiv (Fin g) (replace_zero_nan l)).

Definition rs_series (w : nat) (xs : list Q) : list num :=
  zip_with rs_cell (avg_gain w xs) (avg_loss w xs).

(** [rsi = 100 - (100 / (1 + rs))]; [rsi.fillna(50)] *)
Definition rsi_cell (rs : num) : num :=
  fillna 50 (nsub (Fin 100) (ndiv (Fin 100) (nadd (Fin 1) rs))).

(** [calculate_rsi(data, window)] *)
Definition calculate_rsi (data : option (list Q)) (window : Z) : list num :=
  match data with
  | None => []
  | Some xs =>
      if (Z.of_nat (length xs) <? window + 1)%Z then const_series 50 xs
      else if rolling_ok window then rsi_cell <$> rs_series (Z.to_nat window) xs
      else (* except: *) const_series 50 xs
  end.

(** Every point of a series between two bounds. *)
Definition within (lo hi : Q) (l : list Q) : Prop :=
  Forall (fun x => lo <= x /\ x <= hi) l.

(** [xs.ewm(span=span, adjust=False, min_periods=1).mean()]: the first
    value seeds the average, every later one moves it by the smoothing
    factor [2 / (span + 1)] toward the new point. *)
Definition alpha (span : Z) : Q := 2 / (inject_Z span + 1).

Fixpoint ewm_from (a prev : Q) (xs : list Q) : list Q :=
  match xs with
  | [] => []
  | x :: xs' =>
      let y := (1 - a) * prev + a * x in
      y :: ewm_from a y xs'
  end.

Definition ewm_mean (span : Z) (xs : list Q) : list Q :=
  match xs with
  | [] => []
  | x :: xs' => x :: ewm_from (alpha span) x xs'
  end.

(** [Series.ewm(span=...)] raises [ValueError] unless [span >= 1]. *)
Definition ewm_ok (span : Z) : bool := (1 <=? span)%Z.

(** [calculate_ema(data, window)] *)
Definition calculate_ema (data : option (list Q)) (window : Z) : list num :=
  match data with
  | None => []
  | Some xs =>
      if (Z.of_nat (length xs) <? 2)%Z then nan_series xs
      else if ewm_ok window then Fin <$> ewm_mean window xs
      else (* except: *) nan_series xs
  end.

(** [calculate_macd(data, fast, slow, signal)]: the three series
    [(macd_line, signal_line, histogram)].  The guard answers NaN series,
    the handler series of zeros. *)
Definition macd_line (fast slow : Z) (xs : list Q) : list Q :=
  zip_with Qminus (ewm_mean fast xs) (ewm_mean slow xs).

Definition signal_line (fast slow signal : Z) (xs : list Q) : list Q :=
  ewm_mean signal (macd_line fast slow xs).

Definition histogram (fast slow signal : Z) (xs : list Q) : list Q :=
  zip_with Qminus (macd_line fast slow xs) (signal_line fast slow signal xs).

Definition calculate_macd (data : option (list Q)) (fast slow signal : Z)
  : list num * list num * list num :=
  match data with
  | None => ([], [], [])
  | Some xs =>
      if (Z.of_nat (length xs) <? slow)%Z
      then (nan_series xs, nan_series xs, nan_series xs)
      else if ewm_ok fast && ewm_ok slow && ewm_ok signal
      then (fillna 0 <$> (Fin <$> macd_line fast slow xs),
            fillna 0 <$> (Fin <$> signal_line fast slow signal xs),
            fillna 0 <$> (Fin <$> histogram fast slow signal xs))
      else (* except: *) (const_series 0 xs, const_series 0 xs, const_series 0 xs)
  end.

End Indicators.

(** ** api_handler.py *)

Module ApiHandler.
Import Py.

#[local] Open Scope Q_scope.

(** One [[timestamp, value]] pair of the provider's series; the
    timestamp is in milliseconds since the epoch. *)
Definition sample : Type := Z * Q.

(** The [market_chart] document, as far as the code looks into it:
    [data['prices']] must exist, ['total_volumes'] may. *)
Record payload : Type := {
  prices : option (list sample);
  total_volumes : option (list sample)
}.

(** A row of the OHLC frame.  [volume] is [None] when the frame has no
    such column, [Some None] when the cell is NaN. *)
Record bar : Type := {
  timestamp : Z;
  open : Q;
  high : Q;
  low : Q;
  close : Q;
  volume : option (option Q)
}.

(** The rule of [resample]: ['1H'], ['4H'] or ['1D'], in milliseconds. *)
Definition bucket_width (days : Z) : Z :=
  if (days <=? 7)%Z then 3600000%Z
  else if (days <=? 30)%Z then 14400000%Z
  else 86400000%Z.

(** Left edge of the bin a timestamp falls into.  The three widths
    divide a day, so bins are aligned on multiples of the width. *)
Definition bucket_of (w t : Z) : Z := (t / w * w)%Z.

(** [resample] first orders the frame by its index (a stable sort). *)
Fixpoint insert_by_time (s : sample) (l : list sample) : list sample :=
  match l with
  | [] => [s]
  | s' :: l' =>
      if (s.1 <=? s'.1)%Z then s :: s' :: l' else s' :: insert_by_time s l'
  end.

Fixpoint sort_by_time (l : list sample) : list sample :=
  match l with
  | [] => []
  | s :: l' => insert_by_time s (sort_by_time l')
  end.

(** Time order on samples. *)
Definition earlier_or_same (a b : sample) : Prop := (a.1 <= b.1)%Z.

(** The labels of the resampled index: every bin from the one of the
    earliest sample to the one of the latest. *)
Definition bins (w lo hi : Z) : list Z :=
  (fun k => (lo + Z.of_nat k * w)%Z) <$> seq 0 (S (Z.to_nat ((hi - lo) / w))).

Definition bin_labels (w : Z) (sorted : list sample) : list Z :=
  match sorted with
  | [] => []
  | s :: _ => bins w (bucket_of w s.1) (bucket_of w (List.last sorted s).1)
  end.

Definition in_bucket (w b : Z) (s : sample) : bool := (bucket_of w s.1 =? b)%Z.

(** The values of the samples of bin [b], in index order. *)
Definition bucket_values (w b : Z) (sorted : list sample) : list Q :=
  snd <$> List.filter (in_bucket w b) sorted.

(** [.ohlc()] on one bin; an empty bin is a row of NaN, which
    [dropna()] removes: [None]. *)
Definition ohlc_of (b : Z) (vals : list Q) : option bar :=
  match vals with
  | [] => None
  | p :: ps =>
      Some {| timestamp := b;
              open := p;
              high := fold_left Qmax ps p;
              low := fold_left Qmin ps p;
              close := List.last ps p;
              volume := None |}
  end.

(** What [.ohlc()] puts in the row of a bin. *)
Definition summarises (vals : list Q) (b : bar) : Prop :=
  exists p rest,
    vals = p :: rest /\ open b = p /\ close b = List.last rest p /\
    high b ∈ vals /\ (forall x, x ∈ vals -> (x <= high b)%Q) /\
    low b ∈ vals /\ (forall x, x ∈ vals -> (low b <= x)%Q).

(** [df['price'].resample(rule).ohlc().dropna()] *)
Definition resample_ohlc (w : Z) (ps : list sample) : list bar :=
  let sorted := sort_by_time ps in
  omap (fun b => ohlc_of b (bucket_values w b sorted)) (bin_labels w sorted).

(** [vol_df['volume'].resample(rule).sum()]: a bin without samples sums
    to 0. *)
Definition resample_sum (w : Z) (vs : list sample) : list (Z * Q) :=
  let sorted := sort_by_time vs in
  (fun b => (b, Indicators.qsum (bucket_values w b sorted))) <$> bin_labels w sorted.

(** [ohlc['volume'] = series]: assignment aligns on the index; a label
    the series lacks gets NaN. *)
Definition aligned (series : list (Z * Q)) (label : Z) : option Q :=
  snd <$> List.find (fun e => (e.1 =? label)%Z) series.

Definition set_volume (series : list (Z * Q)) (b : bar) : bar :=
  {| timestamp := timestamp b; open := open b; high := high b;
     low := low b; close := close b;
     volume := Some (aligned series (timestamp b)) |}.

(** [_process_historical_data(data, days)] *)
Definition _process_historical_data (data : payload) (days : Z) : exc (list bar) :=
  match prices data with
  | None => Raise
  | Some ps =>
      let w := bucket_width days in
      let ohlc := resample_ohlc w ps in
      match total_volumes data with
      | None => Ok ohlc
      | Some vs => Ok (set_volume (resample_sum w vs) <$> ohlc)
      end
  end.

(** *** The historical cache *)

(** [self.cache[key] = {'time': ..., 'data': ...}]; [time] is the
    instant in microseconds. *)
Record entry : Type := {
  time : Z;
  data : list bar
}.

(** The [CoinGeckoAPI] object: its cache and, to observe the traffic,
    the requests its session has sent. *)
Record api : Type := {
  cache : gmap string entry;
  requests : list (string * Z)
}.

(** [timedelta(minutes=5)] in microseconds. *)
Definition ttl : Z := 300000000%Z.

(** [f"{coin_id}_{days}"] *)
Definition cache_key (coin_id : string) (days : Z) : string :=
  (coin_id ++ "_" ++ NilZero.string_of_int (Z.to_int days))%string.

(** [get_historical_data(coin_id, days)].  [response] is what the
    [GET] of this call would answer ([Raise]: network error, a
    non-2xx status or a body that is not JSON); [now_check] and
    [now_store] are the two readings of [datetime.now()].  The result
    [None] is the [return None] of the handler.

    [save_cache] rewrites [cache.json] and swallows every error; no
    code reads that file after [__init__], so it is left out. *)
Definition get_historical_data (response : exc payload) (now_check now_store : Z)
    (self : api) (coin_id : string) (days : Z) : option (list bar) * api :=
  let cache_key := cache_key coin_id days in
  let fetch :=
    let self1 := {| cache := cache self;
                    requests := requests self ++ [(coin_id, days)] |} in
    match bind response (fun d => _process_historical_data d days) with
    | Raise => (None, self1)
    | Ok ohlc =>
        (Some ohlc,
         {| cache := <[cache_key := {| time := now_store; data := ohlc |}]> (cache self1);
            requests := requests self1 |})
    end in
  match cache self !! cache_key with
  | Some e =>
      if (now_check - time e <? ttl)%Z then (Some (data e), self) else fetch
  | None => fetch
  end.

(** [len(data)]: a [TypeError] on a value that has no length. *)
Definition py_len (v : json) : exc nat :=
  match v with
  | JList l => Ok (length l)
  | JDict m => Ok (size m)
  | JStr s => Ok (String.length s)
  | JNull | JBool _ | JInt _ | JFloat _ => Raise
  end.

(** [get_top_coins()]: the document, or [None] when anything raised.
    The second component is the raw document handed to
    [save_raw_data]. *)
Definition get_top_coins (response : exc json) : option json * option json :=
  match bind response (fun d => bind (py_len d) (fun _ => Ok d)) with
  | Ok d => (Some d, Some d)
  | Raise => (None, None)
  end.

(** Three prices over two hours and two volume samples in the first. *)
Definition two_hours : list sample :=
  [(0%Z, 1); (1000%Z, 3); (7200000%Z, 2)].

Definition first_hour_volumes : list sample := [(0%Z, 5); (500%Z, 6)].

(** A first fetch that fills the cache and a second one four minutes
    later, whose request would fail if it were sent. *)
Definition empty_api : api :=
  {| cache := ∅; requests := [] |}.

Definition chart : payload :=
  {| prices := Some two_hours; total_volumes := None |}.

Definition four_minutes : Z := 240000000%Z.

End ApiHandler.

(** ** indicators.py, on frames *)

Module Charting.
Import Py Indicators ApiHandler.

(** The OHLC frame with the columns [add_all_indicators] adds.
    [c_volume] is [None] when the frame has no ['volume'] column. *)
Record chart : Type := {
  index : list Z;
  c_open : list num;
  c_high : list num;
  c_low : list num;
  c_close : list num;
  c_volume : option (list num);
  SMA_20 : list num;
  SMA_50 : list num;
  EMA_12 : list num;
  EMA_26 : list num;
  MACD : list num;
  MACD_signal : list num;
  MACD_histogram : list num;
  RSI : list num
}.

Definition cell (v : option Q) : num :=
  match v with
  | Some q => Fin q
  | None => NaN
  end.

(** The ['volume'] column of a frame of bars: there when every bar has
    the field. *)
Definition volume_column (bars : list bar) : option (list num) :=
  fmap (M := option) (fmap cell) (mapM volume bars).

(** What [add_all_indicators] returns: [df] itself when it is [None] or
    empty, the enriched copy otherwise. *)
Inductive enriched : Type :=
  | Untouched (df : option (list bar))
  | WithIndicators (c : chart).

(** [add_all_indicators(df)] on the frame [get_historical_data]
    returns.  The column ['close'] is there and no indicator raises, so
    the [try] runs to its last line, [result.fillna(0)]. *)
Definition add_all_indicators (df : option (list bar)) : enriched :=
  match df with
  | None => Untouched None
  | Some [] => Untouched (Some [])
  | Some bars =>
      let closes := close <$> bars in
      let '(macd, signal, hist) := calculate_macd (Some closes) 12 26 9 in
      let fill := fmap (fillna 0) in
      WithIndicators
        {| index := timestamp <$> bars;
           c_open := fill (Fin <$> (open <$> bars));
           c_high := fill (Fin <$> (high <$> bars));
           c_low := fill (Fin <$> (low <$> bars));
           c_close := fill (Fin <$> closes);
           c_volume := fill <$> volume_column bars;
           SMA_20 := fill (calculate_sma (Some closes) 20);
           SMA_50 := fill (calculate_sma (Some closes) 50);
           EMA_12 := fill (calculate_ema (Some closes) 12);
           EMA_26 := fill (calculate_ema (Some closes) 26);
           MACD := fill macd;
           MACD_signal := fill signal;
           MACD_histogram := fill hist;
           RSI := fill (calculate_rsi (Some closes) 14) |}
  end.

(** All the columns of an enriched frame. *)
Definition columns (c : chart) : list (list num) :=
  [c_open c; c_high c; c_low c; c_close c; SMA_20 c; SMA_50 c; EMA_12 c; EMA_26 c;
   MACD c; MACD_signal c; MACD_histogram c; RSI c] ++ option_list (c_volume c).

(** The part of a frame [detect_trend] looks at: its index and the four
    columns it reads, each of which may be missing. *)
Record frame : Type := {
  f_index : list Z;
  f_close : option (list num);
  f_SMA_20 : option (list num);
  f_SMA_50 : option (list num);
  f_RSI : option (list num)
}.

Definition frame_of_bars (bars : list bar) : frame :=
  {| f_index := timestamp <$> bars;
     f_close := Some (Fin <$> (close <$> bars));
     f_SMA_20 := None; f_SMA_50 := None; f_RSI := None |}.

Definition frame_of_chart (c : chart) : frame :=
  {| f_index := index c;
     f_close := Some (c_close c);
     f_SMA_20 := Some (SMA_20 c);
     f_SMA_50 := Some (SMA_50 c);
     f_RSI := Some (RSI c) |}.

Definition frame_of (e : enriched) : option frame :=
  match e with
  | Untouched df => frame_of_bars <$> df
  | WithIndicators c => Some (frame_of_chart c)
  end.

(** The labels of [detect_trend]. *)
Inductive trend : Type :=
  | NO_DATA | STRONG_UPTREND | UPTREND | STRONG_DOWNTREND | DOWNTREND | NEUTRAL.

(** [a > b] on floats: false whenever a NaN is involved. *)
Definition num_gt (a b : num) : bool :=
  match a, b with
  | NaN, _ | _, NaN => false
  | Fin x, Fin y => is_pos (x - y)
  | PInf, PInf | NInf, NInf => false
  | PInf, _ | _, NInf => true
  | _, PInf | NInf, _ => false
  end.

Definition num_lt (a b : num) : bool := num_gt b a.

Definition is_nan (a : num) : bool :=
  match a with
  | NaN => true
  | _ => false
  end.

(** [col.iloc[-1]]: an [IndexError] on a column without rows. *)
Definition iloc_last (col : list num) : exc num :=
  of_option (last col).

(** [float(df[c].iloc[-1]) if c in df and not pd.isna(df[c].iloc[-1])
    else d] *)
Definition last_or (col : option (list num)) (d : num) : exc num :=
  match col with
  | None => Ok d
  | Some l => bind (iloc_last l) (fun v => Ok (if is_nan v then d else v))
  end.

(** [detect_trend(df)]; the colour that comes with each label is left
    out. *)
Definition detect_trend (df : option frame) : trend :=
  match df with
  | None => NO_DATA
  | Some f =>
      match f_index f, f_close f with
      | [], _ | _, None => NO_DATA
      | _, Some closes =>
          let body :=
            bind (iloc_last closes) (fun lc =>
            let last_price := if is_nan lc then Fin 0 else lc in
            bind (last_or (f_SMA_20 f) last_price) (fun sma_20 =>
            bind (last_or (f_SMA_50 f) last_price) (fun sma_50 =>
            bind (last_or (f_RSI f) (Fin 50)) (fun rsi =>
            Ok (if num_gt last_price sma_20 && num_gt sma_20 sma_50 && num_gt rsi (Fin 50)
                then STRONG_UPTREND
                else if num_gt last_price sma_20 then UPTREND
                else if num_lt last_price sma_20 && num_lt sma_20 sma_50
                        && num_lt rsi (Fin 50)
                then STRONG_DOWNTREND
                else if num_lt last_price sma_20 then DOWNTREND
                else NEUTRAL))))) in
          match body with
          | Ok t => t
          | Raise => (* except: *) NEUTRAL
          end
      end
  end.

(** The two bars of [two_hours], and the payload that also has the
    volumes of the first hour. *)
Definition sample_bars : list bar := resample_ohlc 3600000 two_hours.

Definition chart_with_volumes : payload :=
  {| prices := Some two_hours; total_volumes := Some first_hour_volumes |}.

End Charting.

(** ** database.py *)

Module Database.
Import Py DataProcessor.

(** The rows of table [crypto_market]. *)
Definition table : Type := list coin.

(** The datastore is a collaborator: [upsert(...).execute()] ends in a
    table and either returns ([true]) or raises ([false]);
    [select(...).execute()] may fail as a whole. *)
Record datastore : Type := {
  execute_upsert : table -> list coin -> table * bool;
  select_ok : bool
}.

(** The datastore applies a request entirely or not at all: an
    [execute()] that raises leaves the table as it was. *)
Definition atomic (ds : datastore) : Prop :=
  forall t batch t', execute_upsert ds t batch = (t', false) -> t' = t.

(** [save_coins(coins_data)] *)
Definition save_coins (ds : datastore) (t : table) (coins_data : list coin)
  : bool * table :=
  match coins_data with
  | [] => (false, t)
  | _ =>
      let '(t', returned) := execute_upsert ds t coins_data in
      (returned, t')
  end.

(** [.order("extracted_at", desc=True)]: newest first, rows of equal
    time in table order. *)
Fixpoint insert_desc (c : coin) (l : list coin) : list coin :=
  match l with
  | [] => [c]
  | c' :: l' =>
      if extracted_at c' <=? extracted_at c then c :: c' :: l'
      else c' :: insert_desc c l'
  end.

Fixpoint order_desc (l : list coin) : list coin :=
  match l with
  | [] => []
  | c :: l' => insert_desc c (order_desc l')
  end.

(** [coin['coin_id'] not in seen], on the dictionary [seen] kept as its
    items in insertion order. *)
Definition not_in (k : string) (seen : list (string * coin)) : bool :=
  negb (existsb (fun e => String.eqb e.1 k) seen).

(** The loop over [result.data]. *)
Fixpoint unique_loop (rows : list coin) (seen : list (string * coin))
  : list (string * coin) :=
  match rows with
  | [] => seen
  | c :: rows' =>
      if not_in (coin_id c) seen
      then unique_loop rows' (seen ++ [(coin_id c, c)])
      else unique_loop rows' seen
  end.

(** [get_coins()]: [list(seen.values())], or [[]] when the query
    raised. *)
Definition get_coins (ds : datastore) (t : table) : list coin :=
  if select_ok ds then snd <$> unique_loop (order_desc t) [] else [].

(** Newest first, and the first row of a given identifier: the two
    notions the deduplication is stated with. *)
Definition newer_or_same (a b : coin) : Prop := extracted_at b <= extracted_at a.

Definition first_of (k : string) (rows : list coin) : option coin :=
  List.find (fun c => String.eqb (coin_id c) k) rows.

(** A datastore that honours [on_conflict='coin_id'] and applies a
    request entirely or not at all: a row with the same [coin_id] is
    overwritten in place, a new one appended; [reachable] tells
    whether the request gets through. *)
Fixpoint upsert_row (c : coin) (t : table) : table :=
  match t with
  | [] => [c]
  | r :: t' =>
      if String.eqb (coin_id r) (coin_id c) then c :: t'
      else r :: upsert_row c t'
  end.

Definition upsert_rows (t : table) (batch : list coin) : table :=
  fold_left (fun acc c => upsert_row c acc) batch t.

Definition atomic_store (reachable : bool) : datastore :=
  {| execute_upsert := fun t batch =>
       if reachable then (upsert_rows t batch, true) else (t, false);
     select_ok := true |}.

(** A row of identifier ["bitcoin"] extracted at a given instant. *)
Definition row_at (instant : Z) : coin :=
  {| coin_id := "bitcoin"; symbol := "BTC"; name := "Bitcoin";
     current_price := 1; market_cap := 1; total_volume := 1;
     price_change_24h := 0; market_cap_rank := 1; volatility_score := 0;
     extracted_at := instant |}.

End Database.

(** ** etl_pipeline.py *)

Module ETLPipeline.
Import Py DataProcessor Database.

(** The stages a run enters, in the order it enters them. *)
Inductive stage : Type := Extract | Transform | Load | Summarize.

(** What a run meets outside the process: the answer to the [GET] of
    [get_top_coins], the clock read by [process], the interpreter
    details and the datastore. *)
Record env : Type := {
  response : exc json;
  now : Z;
  rt : runtime;
  store : datastore
}.

(** What a run can change: the table, the audit copies written by
    [save_raw_data], and the stages entered. *)
Record world : Type := {
  rows : table;
  raw_files : list json;
  trace : list stage
}.

Definition enter (s : stage) (w : world) : world :=
  {| rows := rows w; raw_files := raw_files w; trace := trace w ++ [s] |}.

Definition keep_raw (d : option json) (w : world) : world :=
  match d with
  | Some v => {| rows := rows w; raw_files := raw_files w ++ [v]; trace := trace w |}
  | None => w
  end.

Definition set_rows (t : table) (w : world) : world :=
  {| rows := t; raw_files := raw_files w; trace := trace w |}.

Definition falsy (raw_data : option json) : bool :=
  match raw_data with
  | None => true
  | Some v => negb (truthy v)
  end.

(** [ETLPipeline.run()].  The summary after a successful load only
    reads ([get_coins], [calculate_market_stats], both of which catch
    their own errors), so it leaves the world as it is. *)
Definition run (e : env) (w : world) : bool * world :=
  let w := enter Extract w in
  let '(raw_data, audit) := ApiHandler.get_top_coins (response e) in
  let w := keep_raw audit w in
  if falsy raw_data then (false, w) else
  let w := enter Transform w in
  match process (rt e) (now e) raw_data with
  | Raise => (* except Exception *) (false, w)
  | Ok [] => (false, w)
  | Ok transformed =>
      let w := enter Load w in
      let '(success, t') := save_coins (store e) (rows w) transformed in
      let w := set_rows t' w in
      if success then (true, enter Summarize w) else (false, w)
  end.

(** A run whose load is refused: one valid record arrives, the datastore
    cannot be reached, the run fails and the stored row is still there. *)
Definition stored_row : coin :=
  {| coin_id := "bitcoin"; symbol := "BTC";
     name := "Bitcoin"; current_price := 1;
     market_cap := 1; total_volume := 1;
     price_change_24h := 0; market_cap_rank := 1;
     volatility_score := 0; extracted_at := 1 |}.

Definition refused_load : env :=
  {| response := Ok (JList [bitcoin]);
     now := 7;
     rt := plain_runtime;
     store := atomic_store false |}.

Definition before_run : world :=
  {| rows := [stored_row]; raw_files := [];
     trace := [] |}.

(** The same record with a datastore that can be reached, and an answer
    that is a text instead of a list. *)
Definition granted_load : env :=
  {| response := Ok (JList [bitcoin]); now := 7; rt := plain_runtime;
     store := atomic_store true |}.

Definition throttled : env :=
  {| response := Ok (JStr "rate limited"); now := 7; rt := plain_runtime;
     store := atomic_store true |}.

End ETLPipeline.

(* ===================================================================== *)
(** * Part II. Properties                                                 *)
(* ===================================================================== *)

(** ** Signs in binary64 arithmetic *)

Section FloatSigns.
Import Py.

Lemma binary_round_aux_clear (mx ex : Z) (lx : location) :
  sign_clear (binary_round_aux prec emax false mx ex lx).
Proof.
  unfold binary_round_aux.
  destruct (shr_fexp prec emax mx ex lx) as [mrs' e'].
  destruct (shr_fexp prec emax _ e' loc_Exact) as [mrs'' e''].
  destruct (shr_m mrs''); simpl; auto.
  destruct (Z.leb _ _); simpl; auto.
Qed.

Lemma binary_round_clear (mx : positive) (ex : Z) :
  sign_clear (binary_round prec emax false mx ex).
Proof.
  unfold binary_round. destruct (shl_align _ _ _) as [mz ez].
  apply binary_round_aux_clear.
Qed.

Lemma binary_normalize_clear (z e : Z) :
  0 <= z -> sign_clear (binary_normalize prec emax z e false).
Proof.
  intros Hz. unfold binary_normalize. destruct z; [reflexivity| |lia].
  apply binary_round_clear.
Qed.

Lemma SFldexp_clear (x : spec_float) (e : Z) :
  sign_clear x -> sign_clear (SFldexp prec emax x e).
Proof.
  destruct x as [s|s| |s m ex]; simpl; auto. intros ->. apply binary_round_clear.
Qed.

Lemma SFmul_clear (x y : spec_float) :
  sign_clear x -> sign_clear y -> sign_clear (SFmul prec emax x y).
Proof.
  destruct x as [s|s| |s m ex], y as [s'|s'| |s' m' ey]; simpl; auto;
    intros -> ->; simpl; auto.
  apply binary_round_aux_clear.
Qed.

Lemma SFdiv_clear (x y : spec_float) :
  sign_clear x -> sign_clear y -> sign_clear (SFdiv prec emax x y).
Proof.
  destruct x as [s|s| |s m ex], y as [s'|s'| |s' m' ey]; simpl; auto;
    intros -> ->; simpl; auto.
  destruct (SFdiv_core_binary _ _ _ _ _ _) as [[mz ez] lz].
  apply binary_round_aux_clear.
Qed.

Lemma SFabs_clear (x : spec_float) : sign_clear (SFabs x).
Proof. destruct x; simpl; auto. Qed.

(** The float of a non-negative integer has its sign bit clear. *)
Lemma Z2F_clear (z : Z) : 0 <= z -> sign_clear (Prim2SF (Z2F z)).
Proof.
  intros Hz. unfold Z2F.
  pose proof (binary_normalize_clear z 0 Hz) as Hc.
  destruct (binary_normalize prec emax z 0 false) as [s|s| |s m e]; simpl in Hc; subst.
  - vm_compute. reflexivity.
  - vm_compute. reflexivity.
  - vm_compute. exact I.
  - cbv [SF2Prim]. rewrite Z_ldexp_spec, of_uint63_spec.
    apply SFldexp_clear, binary_normalize_clear.
    apply Uint63.to_Z_bounded.
Qed.

(** A value with a clear sign bit that is not NaN compares [>= 0]. *)
Lemma leb_zero_clear (x : float) :
  sign_clear (Prim2SF x) -> PrimFloat.is_nan x = false -> (0 <=? x)%float = true.
Proof.
  intros Hc Hn. rewrite FloatAxioms.leb_spec.
  assert (Hnn : Prim2SF x <> S754_nan).
  { intros Hx. unfold PrimFloat.is_nan in Hn.
    rewrite FloatAxioms.eqb_spec, Hx in Hn. discriminate. }
  change (Prim2SF 0) with (S754_zero false).
  destruct (Prim2SF x) as [s|s| |s m e]; simpl in *; subst; try reflexivity.
  contradiction.
Qed.

End FloatSigns.

(** ** Feature transformer *)

Section Transformer.
Import Py DataProcessor.
Variable rt : runtime.
Variable timestamp : Z.

Lemma string_of_int_nonempty (d : Decimal.signed_int) :
  NilZero.string_of_int d <> EmptyString.
Proof.
  destruct d as [u|u]; simpl; [|discriminate].
  unfold NilZero.string_of_uint. destruct u; simpl; discriminate.
Qed.

(** Only the empty string prints as the empty text. *)
Lemma py_str_empty (v : json) : py_str rt v = EmptyString <-> v = JStr EmptyString.
Proof.
  split; [|intros ->; reflexivity].
  destruct v as [|[]|z|f|s|l|m]; simpl; try discriminate.
  - intros H. exfalso. exact (string_of_int_nonempty _ H).
  - destruct (float_text rt f); discriminate.
  - intros ->. reflexivity.
Qed.

Lemma upper_empty (s : string) : upper s = EmptyString <-> s = EmptyString.
Proof. destruct s; simpl; split; (reflexivity || discriminate). Qed.

Lemma upper_length (s : string) : String.length (upper s) = String.length s.
Proof. induction s; simpl; congruence. Qed.

Lemma str_or_nonempty (s d : string) : d <> EmptyString -> str_or s d <> EmptyString.
Proof.
  unfold str_or. intros Hd. destruct (String.eqb_spec s EmptyString); congruence.
Qed.

Lemma try_body_some (c : json) (r : coin) :
  try_body rt timestamp c = Ok (Some r) ->
  exists m, c = JDict m /\ coin_id r <> EmptyString /\ fields_of rt timestamp m r.
Proof.
  destruct c as [| | | | | |m]; try discriminate.
  intros H. exists m. split; [reflexivity|].
  unfold try_body in H. simpl in H.
  destruct (String.eqb_spec (py_str rt (dict_get m "id" (JStr ""))) "") as [|Hid];
    [discriminate|].
  destruct (py_float rt (py_or (dict_get m "current_price" JNull) (JInt 0)))
    as [price|] eqn:Hprice; [|discriminate].
  destruct (py_int rt (py_or (dict_get m "market_cap" JNull) (JInt 0)))
    as [cap|] eqn:Hcap; [|discriminate].
  destruct (py_int rt (py_or (dict_get m "total_volume" JNull) (JInt 0)))
    as [vol|] eqn:Hvol; [|discriminate].
  destruct (py_float rt (py_or (dict_get m "price_change_percentage_24h" JNull) (JInt 0)))
    as [chg|] eqn:Hchg; [|discriminate].
  destruct (py_int rt (py_or (dict_get m "market_cap_rank" JNull) (JInt 999)))
    as [rank|] eqn:Hrank; [|discriminate].
  simpl in H. injection H as <-. simpl.
  split; [exact Hid|]. unfold fields_of; simpl. repeat split; assumption.
Qed.

Lemma process_coin_appended (c : json) (r : coin) :
  process_coin rt timestamp c = Appended r ->
  exists m, c = JDict m /\ coin_id r <> EmptyString /\ fields_of rt timestamp m r.
Proof.
  unfold process_coin, handler.
  destruct (try_body rt timestamp c) as [[r'|]|] eqn:Hbody.
  - intros [= <-]. exact (try_body_some _ _ Hbody).
  - discriminate.
  - destruct (get c "name" (JStr "unknown")); discriminate.
Qed.

(** A dictionary never makes the handler raise: a record that is a
    dictionary is appended or skipped. *)
Lemma process_coin_dict (m : gmap string json) :
  process_coin rt timestamp (JDict m) <> Escaped.
Proof.
  unfold process_coin, handler.
  destruct (try_body rt timestamp (JDict m)) as [[r|]|]; simpl; discriminate.
Qed.

(** Anything else does: [coin.get] raises in the body and again in the
    handler. *)
Lemma process_coin_not_dict (c : json) :
  (forall m, c <> JDict m) -> process_coin rt timestamp c = Escaped.
Proof.
  intros Hc. destruct c; try reflexivity. exfalso. exact (Hc _ eq_refl).
Qed.

(** The loop appends, in order, the records of the items it accepts,
    as long as no item makes the handler raise. *)
Lemma process_loop_ok (items : list json) (processed : list coin) :
  Forall (fun c => process_coin rt timestamp c <> Escaped) items ->
  process_loop rt timestamp items processed
  = Ok (processed ++ omap (accepted rt timestamp) items).
Proof.
  intros Hall. revert processed.
  induction Hall as [|c items Hc _ IH]; intros processed; simpl.
  - by rewrite app_nil_r.
  - unfold accepted. destruct (process_coin rt timestamp c) as [r| |].
    + rewrite IH. by rewrite <- app_assoc.
    + apply IH.
    + contradiction.
Qed.

Lemma process_loop_escaped (items : list json) (processed : list coin) :
  Exists (fun c => process_coin rt timestamp c = Escaped) items ->
  process_loop rt timestamp items processed = Raise.
Proof.
  intros Hex. revert processed.
  induction Hex as [c items Hc|c items _ IH]; intros processed; simpl.
  - by rewrite Hc.
  - destruct (process_coin rt timestamp c); auto.
Qed.

Lemma omap_length_le {A B} (f : A -> option B) (l : list A) :
  (length (omap f l) <= length l)%nat.
Proof.
  induction l as [|a l IH]; [reflexivity|].
  cbn. destruct (f a); cbn; lia.
Qed.

(** What holds of a batch of dictionaries: the call returns, the
    output is the image of a sub-sequence of the input (so it is no
    longer and keeps the order), and the three texts of every output
    record are not empty. *)
Lemma process_batch_of_dicts (batch : list json) :
  Forall (fun c => exists m, c = JDict m) batch ->
  exists out,
    process rt timestamp (Some (JList batch)) = Ok out /\
    out = omap (accepted rt timestamp) batch /\
    (length out <= length batch)%nat /\
    Forall (fun r => coin_id r <> EmptyString /\ symbol r <> EmptyString
                     /\ name r <> EmptyString) out.
Proof.
  intros Hd. exists (omap (accepted rt timestamp) batch).
  split; [|split; [reflexivity|split; [apply omap_length_le|]]].
  - unfold process. destruct batch as [|c batch]; [reflexivity|].
    simpl negb. cbv iota. unfold bind, py_iter.
    rewrite process_loop_ok; [reflexivity|].
    eapply Forall_impl; [exact Hd|]. intros x [m ->]. apply process_coin_dict.
  - apply Forall_forall. intros r Hr.
    apply list_elem_of_omap in Hr as (c & _ & Hacc).
    unfold accepted in Hacc.
    destruct (process_coin rt timestamp c) as [r'| |] eqn:Hc; try discriminate.
    injection Hacc as ->.
    apply process_coin_appended in Hc as (m & _ & Hid & Hf).
    destruct Hf as (_ & Hsym & Hnm & _).
    split; [exact Hid|]. rewrite Hsym, Hnm.
    split; apply str_or_nonempty; discriminate.
Qed.

(** C5. A batch in which one record is not a dictionary (here a JSON
    [null] after a complete record) is not skipped over: evaluating
    [coin.get] in the handler's log line raises again, the exception
    leaves [process], and the record already converted is lost with
    the rest of the batch. *)
Theorem process_aborts_on_non_dict_record :
  accepted rt timestamp bitcoin <> None /\
  process rt timestamp (Some (JList [bitcoin; JNull])) = Raise.
Proof. split; [discriminate|reflexivity]. Qed.

(** The score is the product, with NaN and a failed conversion of the
    volume replaced by zero. *)
Lemma million : int_to_float 1000000 = Ok 1000000%float.
Proof. reflexivity. Qed.

Lemma volatility_formula (chg : float) (vol : Z) :
  volatility chg vol =
    match int_to_float vol with
    | Ok v =>
        let x := (PrimFloat.abs chg * v / 1000000)%float in
        if PrimFloat.is_nan x then 0%float else x
    | Raise => 0%float
    end.
Proof.
  unfold volatility, raw_volatility.
  destruct (int_to_float vol) as [v|]; simpl; reflexivity.
Qed.

Lemma volatility_not_nan (chg : float) (vol : Z) :
  PrimFloat.is_nan (volatility chg vol) = false.
Proof.
  rewrite volatility_formula.
  destruct (int_to_float vol) as [v|]; [|reflexivity].
  cbv zeta.
  destruct (PrimFloat.is_nan (PrimFloat.abs chg * v / 1000000)) eqn:Hnan;
    [reflexivity|exact Hnan].
Qed.

Lemma volatility_nonneg (chg : float) (vol : Z) :
  0 <= vol -> (0 <=? volatility chg vol)%float = true.
Proof.
  intros Hvol. rewrite volatility_formula. unfold int_to_float.
  destruct (PrimFloat.is_infinity (Z2F vol)); [reflexivity|]. cbv zeta.
  destruct (PrimFloat.is_nan (PrimFloat.abs chg * Z2F vol / 1000000)) eqn:Hnan;
    [reflexivity|].
  apply leb_zero_clear; [|exact Hnan].
  rewrite div_spec, mul_spec, abs_spec.
  apply SFdiv_clear; [apply SFmul_clear|].
  - apply SFabs_clear.
  - by apply Z2F_clear.
  - vm_compute. reflexivity.
Qed.

(** C10. For a record that [process] keeps: a [null] under ['symbol']
    gives the symbol ["NONE"], a [null] under ['name'] the name
    ["None"]; the defaults ["UNKNOWN"] and ["Unknown"] are taken when
    the key is absent or holds the empty string, and in no other case:
    any other value contributes its own text (upper-cased for the
    symbol). *)
Theorem null_symbol_and_name_are_stringified (m : gmap string json) (r : coin) :
  process_coin rt timestamp (JDict m) = Appended r ->
  (m !! "symbol" = Some JNull -> symbol r = "NONE") /\
  (m !! "name" = Some JNull -> name r = "None") /\
  (m !! "symbol" = None \/ m !! "symbol" = Some (JStr "") -> symbol r = "UNKNOWN") /\
  (m !! "name" = None \/ m !! "name" = Some (JStr "") -> name r = "Unknown") /\
  (forall v, m !! "symbol" = Some v -> v <> JStr "" ->
     symbol r = upper (py_str rt v) /\ symbol r <> EmptyString) /\
  (forall v, m !! "name" = Some v -> v <> JStr "" ->
     name r = py_str rt v /\ name r <> EmptyString).
Proof.
  intros Hr. apply process_coin_appended in Hr as (m' & [= <-] & _ & Hf).
  destruct Hf as (_ & Hsym & Hnm & _). rewrite Hsym, Hnm. unfold dict_get.
  repeat split.
  - intros ->. reflexivity.
  - intros ->. reflexivity.
  - intros [-> | ->]; reflexivity.
  - intros [-> | ->]; reflexivity.
  - rewrite H. simpl. unfold str_or.
    destruct (String.eqb_spec (upper (py_str rt v)) "") as [He|]; [|reflexivity].
    apply upper_empty, py_str_empty in He. contradiction.
  - rewrite H. simpl. apply str_or_nonempty. discriminate.
  - rewrite H. simpl. unfold str_or.
    destruct (String.eqb_spec (py_str rt v) "") as [He|]; [|reflexivity].
    apply py_str_empty in He. contradiction.
  - rewrite H. simpl. apply str_or_nonempty. discriminate.
Qed.

(** C8, as the code has it. For a record that [process] keeps, the
    score is [abs(price_change_24h) * total_volume / 1_000_000] in
    binary64, replaced by [0.0] when that value is NaN or when the
    volume is too large an integer to convert; so the score is never
    NaN, and it is at least 0 (possibly infinite) whenever the volume is
    not negative. *)
Theorem volatility_score_is_nan_clamped_product (c : json) (r : coin) :
  process_coin rt timestamp c = Appended r ->
  volatility_score r =
    match int_to_float (total_volume r) with
    | Ok v =>
        let x := (PrimFloat.abs (price_change_24h r) * v / 1000000)%float in
        if PrimFloat.is_nan x then 0%float else x
    | Raise => 0%float
    end /\
  PrimFloat.is_nan (volatility_score r) = false /\
  (0 <= total_volume r -> (0 <=? volatility_score r)%float = true).
Proof.
  intros Hr. apply process_coin_appended in Hr as (m & _ & _ & Hf).
  destruct Hf as (_ & _ & _ & _ & _ & _ & _ & _ & Hv & _). rewrite Hv.
  split; [apply volatility_formula|].
  split; [apply volatility_not_nan|apply volatility_nonneg].
Qed.

End Transformer.

(** The null texts on a concrete record. *)
Lemma null_symbol_and_name_witness :
  exists r,
    DataProcessor.process_coin Py.plain_runtime 7 DataProcessor.nameless
      = DataProcessor.Appended r /\
    DataProcessor.symbol r = "NONE" /\ DataProcessor.name r = "None".
Proof.
  eexists. split; [reflexivity|].
  pose proof (null_symbol_and_name_are_stringified Py.plain_runtime 7
                (DataProcessor.fields "x" Py.JNull Py.JNull (Py.JInt 0) (Py.JInt 0))
                _ eq_refl) as (Hs & Hn & _).
  split; [apply Hs; reflexivity|apply Hn; reflexivity].
Defined.

(** C8 fails as stated: two kept records with finite raw fields whose
    score is infinite, respectively negative. *)
Lemma volatility_score_infinite_or_negative :
  (exists r, DataProcessor.process_coin Py.plain_runtime 7 DataProcessor.surging
             = DataProcessor.Appended r /\
             DataProcessor.volatility_score r = infinity) /\
  (exists r, DataProcessor.process_coin Py.plain_runtime 7 DataProcessor.short_sold
             = DataProcessor.Appended r /\
             (DataProcessor.volatility_score r <? 0)%float = true).
Proof. split; eexists; split; reflexivity. Qed.

Lemma volatility_score_witness :
  exists r,
    DataProcessor.process_coin Py.plain_runtime 7 DataProcessor.bitcoin
      = DataProcessor.Appended r /\
    DataProcessor.volatility_score r = 10%float /\
    PrimFloat.is_nan (DataProcessor.volatility_score r) = false /\
    (0 <=? DataProcessor.volatility_score r)%float = true.
Proof.
  eexists. split; [reflexivity|].
  pose proof (volatility_score_is_nan_clamped_product Py.plain_runtime 7
                DataProcessor.bitcoin _ eq_refl) as (_ & Hn & Hpos).
  split; [reflexivity|]. split; [exact Hn|].
  apply Hpos. simpl. lia.
Defined.

(** ** Indicator library *)

Section IndicatorFacts.
Import Indicators.
#[local] Open Scope Q_scope.

(** *** Rolling means *)

Lemma rolling_mean_length (w : nat) (xs : list Q) :
  length (rolling_mean w xs) = length xs.
Proof. unfold rolling_mean. by rewrite length_fmap, length_seq. Qed.

Lemma rolling_mean_lookup (w i : nat) (xs : list Q) :
  (i < length xs)%nat ->
  rolling_mean w xs !! i = Some (mean (window_at w i xs)).
Proof.
  intros Hi. unfold rolling_mean.
  rewrite list_lookup_fmap, lookup_seq_lt by exact Hi. reflexivity.
Qed.

(** Before the window is full it covers every point so far ... *)
Lemma window_partial (w i : nat) (xs : list Q) :
  (S i <= w)%nat -> window_at w i xs = take (S i) xs.
Proof.
  intros Hi. unfold window_at.
  replace (S i - w)%nat with 0%nat by lia. reflexivity.
Qed.

(** ... and from then on exactly the trailing [w] points. *)
Lemma window_full_length (w i : nat) (xs : list Q) :
  (i < length xs)%nat -> (w <= S i)%nat -> length (window_at w i xs) = w.
Proof.
  intros Hi Hw. unfold window_at. rewrite length_drop, length_take. lia.
Qed.

Lemma window_at_last (w i : nat) (xs : list Q) (x : Q) :
  (1 <= w)%nat -> xs !! i = Some x -> List.last (window_at w i xs) 0 = x.
Proof.
  intros Hw Hx. unfold window_at.
  pose proof (lookup_lt_Some _ _ _ Hx) as Hlt.
  rewrite (take_S_r _ _ _ Hx), drop_app_le by (rewrite length_take; lia).
  apply last_last.
Qed.

Lemma qsum_nonneg (l : list Q) : Forall (Qle 0) l -> 0 <= qsum l.
Proof.
  induction 1 as [|x l Hx _ IH]; simpl; [apply Qle_refl|].
  rewrite <- (Qplus_0_l 0). by apply Qplus_le_compat.
Qed.

Lemma qsum_zero (l : list Q) : Forall (fun x => x == 0) l -> qsum l == 0.
Proof.
  induction 1 as [|x l Hx _ IH]; simpl; [reflexivity|].
  rewrite Hx, IH. reflexivity.
Qed.

Lemma mean_nonneg (l : list Q) : Forall (Qle 0) l -> 0 <= mean l.
Proof.
  intros Hl. unfold mean, Qdiv. apply Qmult_le_0_compat.
  - by apply qsum_nonneg.
  - apply Qinv_le_0_compat. unfold Qle; simpl. lia.
Qed.

Lemma mean_zero (l : list Q) : Forall (fun x => x == 0) l -> mean l == 0.
Proof.
  intros Hl. unfold mean, Qdiv. rewrite (qsum_zero _ Hl). apply Qmult_0_l.
Qed.

Lemma window_at_Forall (P : Q -> Prop) (w i : nat) (xs : list Q) :
  Forall P xs -> Forall P (window_at w i xs).
Proof. intros H. unfold window_at. by apply Forall_drop, Forall_take. Qed.

Lemma rolling_mean_nonneg (w : nat) (xs : list Q) :
  Forall (Qle 0) xs -> Forall (Qle 0) (rolling_mean w xs).
Proof.
  intros Hxs. unfold rolling_mean. apply Forall_fmap, Forall_forall.
  intros i _. simpl. by apply mean_nonneg, window_at_Forall.
Qed.

Lemma rolling_mean_zero (w : nat) (xs : list Q) :
  Forall (fun x => x == 0) xs -> Forall (fun x => x == 0) (rolling_mean w xs).
Proof.
  intros Hxs. unfold rolling_mean. apply Forall_fmap, Forall_forall.
  intros i _. simpl. by apply mean_zero, window_at_Forall.
Qed.

(** *** Deltas, gains and losses *)

Lemma diff_length (xs : list Q) : length (diff xs) = length xs.
Proof.
  destruct xs as [|x xs]; [reflexivity|]. simpl. f_equal.
  revert x. induction xs as [|y xs IH]; intros x; simpl; [reflexivity|].
  by rewrite IH.
Qed.

Lemma gain_cell_nonneg (d : option Q) : 0 <= gain_cell d.
Proof.
  destruct d as [x|]; simpl; [|apply Qle_refl].
  unfold is_pos. destruct (Qle_bool x 0) eqn:Hx; simpl; [apply Qle_refl|].
  apply Qnot_lt_le. intros Hlt. apply Qlt_le_weak, Qle_bool_iff in Hlt. congruence.
Qed.

Lemma loss_cell_nonneg (d : option Q) : 0 <= loss_cell d.
Proof.
  destruct d as [x|]; simpl; [|unfold Qle; simpl; lia].
  unfold is_neg. destruct (Qle_bool 0 x) eqn:Hx; simpl; [unfold Qle; simpl; lia|].
  apply (Qopp_le_compat x 0). apply Qnot_lt_le. intros Hlt.
  apply Qlt_le_weak, Qle_bool_iff in Hlt. congruence.
Qed.

Lemma avg_gain_nonneg (w : nat) (xs : list Q) : Forall (Qle 0) (avg_gain w xs).
Proof.
  apply rolling_mean_nonneg, Forall_fmap, Forall_forall.
  intros d _. apply gain_cell_nonneg.
Qed.

Lemma avg_loss_nonneg (w : nat) (xs : list Q) : Forall (Qle 0) (avg_loss w xs).
Proof.
  apply rolling_mean_nonneg, Forall_fmap, Forall_forall.
  intros d _. apply loss_cell_nonneg.
Qed.

Lemma avg_gain_length (w : nat) (xs : list Q) : length (avg_gain w xs) = length xs.
Proof. unfold avg_gain. by rewrite rolling_mean_length, length_fmap, diff_length. Qed.

Lemma avg_loss_length (w : nat) (xs : list Q) : length (avg_loss w xs) = length xs.
Proof. unfold avg_loss. by rewrite rolling_mean_length, length_fmap, diff_length. Qed.

(** *** The two cells of the RSI formula *)

(** A zero average loss is replaced by NaN, the quotient is NaN, and
    [fillna(0)] makes the relative strength 0. *)
Lemma rs_cell_zero_loss (g l : Q) : l == 0 -> rs_cell g l = Fin 0.
Proof.
  intros Hl. unfold rs_cell, replace_zero_nan, is_zero.
  apply Qeq_bool_iff in Hl. rewrite Hl. reflexivity.
Qed.

(** With relative strength 0 the formula gives [100 - 100/1]. *)
Lemma rsi_cell_zero : rsi_cell (Fin 0) = Fin 0.
Proof. reflexivity. Qed.

Lemma rs_cell_nonneg (g l : Q) :
  0 <= g -> 0 <= l -> exists q, rs_cell g l = Fin q /\ 0 <= q.
Proof.
  intros Hg Hl. unfold rs_cell, replace_zero_nan, is_zero.
  destruct (Qeq_bool l 0) eqn:Hz; simpl.
  - exists 0. split; [reflexivity|apply Qle_refl].
  - unfold is_zero. rewrite Hz. exists (g / l). split; [reflexivity|].
    apply Qeq_bool_neq in Hz.
    apply Qle_shift_div_l; [|by rewrite Qmult_0_l].
    apply Qle_lteq in Hl as [Hl|Hl]; [exact Hl|]. symmetry in Hl. contradiction.
Qed.

Lemma rsi_cell_bounds (q : Q) :
  0 <= q -> exists r, rsi_cell (Fin q) = Fin r /\ 0 <= r /\ r <= 100.
Proof.
  intros Hq.
  assert (Hpos : 0 < 1 + q).
  { apply Qlt_le_trans with 1; [reflexivity|].
    rewrite <- (Qplus_0_r 1) at 1. by apply Qplus_le_r. }
  unfold rsi_cell, nsub, nadd, ndiv, is_zero.
  destruct (Qeq_bool (1 + q) 0) eqn:Hz.
  { apply Qeq_bool_iff in Hz. rewrite Hz in Hpos. by apply Qlt_irrefl in Hpos. }
  simpl. exists (100 + - (100 / (1 + q))). split; [reflexivity|].
  assert (Hlo : 0 <= 100 / (1 + q)).
  { apply Qle_shift_div_l; [exact Hpos|]. rewrite Qmult_0_l. discriminate. }
  assert (Hhi : 100 / (1 + q) <= 100).
  { apply Qle_shift_div_r; [exact Hpos|].
    rewrite <- (Qmult_1_r 100) at 1. apply Qmult_le_l; [reflexivity|].
    rewrite <- (Qplus_0_r 1) at 1. by apply Qplus_le_r. }
  split.
  - apply (Qplus_le_r _ _ (100 / (1 + q))). ring_simplify. exact Hhi.
  - apply (Qplus_le_r _ _ (100 / (1 + q))). ring_simplify.
    rewrite <- (Qplus_0_l 100) at 1. by apply Qplus_le_l.
Qed.

Lemma rs_series_lookup (w i : nat) (xs : list Q) (g l : Q) :
  avg_gain w xs !! i = Some g -> avg_loss w xs !! i = Some l ->
  rs_series w xs !! i = Some (rs_cell g l).
Proof.
  intros Hg Hl. unfold rs_series. rewrite lookup_zip_with, Hg, Hl. reflexivity.
Qed.

End IndicatorFacts.

Section IndicatorClaims.
Import Indicators.
#[local] Open Scope Q_scope.

(** *** The three paths of [calculate_rsi] *)

Lemma calculate_rsi_short (xs : list Q) (window : Z) :
  (Z.of_nat (length xs) < window + 1)%Z ->
  calculate_rsi (Some xs) window = const_series 50 xs.
Proof.
  intros H. unfold calculate_rsi.
  destruct (Z.ltb_spec (Z.of_nat (length xs)) (window + 1)); [reflexivity|lia].
Qed.

Lemma calculate_rsi_rejected_window (xs : list Q) (window : Z) :
  (window < 1)%Z -> calculate_rsi (Some xs) window = const_series 50 xs.
Proof.
  intros H. unfold calculate_rsi, rolling_ok.
  destruct (Z.ltb_spec (Z.of_nat (length xs)) (window + 1)); [reflexivity|].
  destruct (Z.leb_spec 1 window); [lia|reflexivity].
Qed.

Lemma calculate_rsi_long (xs : list Q) (window : Z) :
  (1 <= window)%Z -> (window + 1 <= Z.of_nat (length xs))%Z ->
  calculate_rsi (Some xs) window = rsi_cell <$> rs_series (Z.to_nat window) xs.
Proof.
  intros H1 H2. unfold calculate_rsi, rolling_ok.
  destruct (Z.ltb_spec (Z.of_nat (length xs)) (window + 1)); [lia|].
  destruct (Z.leb_spec 1 window); [reflexivity|lia].
Qed.

Lemma calculate_rsi_length (xs : list Q) (window : Z) :
  length (calculate_rsi (Some xs) window) = length xs.
Proof.
  unfold calculate_rsi, const_series, rs_series.
  repeat case_match; rewrite ?length_fmap, ?length_zip_with,
    ?avg_gain_length, ?avg_loss_length; lia.
Qed.

(** Where the average loss is zero, the long path yields 0. *)
Lemma rsi_at_zero_loss (xs : list Q) (window : Z) (i : nat) (l : Q) :
  (1 <= window)%Z -> (window + 1 <= Z.of_nat (length xs))%Z ->
  avg_loss (Z.to_nat window) xs !! i = Some l -> l == 0 ->
  rs_series (Z.to_nat window) xs !! i = Some (Fin 0) /\
  calculate_rsi (Some xs) window !! i = Some (Fin 0).
Proof.
  intros H1 H2 Hl Hz.
  assert (Hi : (i < length xs)%nat).
  { apply lookup_lt_Some in Hl. by rewrite avg_loss_length in Hl. }
  destruct (lookup_lt_is_Some_2 (avg_gain (Z.to_nat window) xs) i) as [g Hg].
  { by rewrite avg_gain_length. }
  assert (Hrs : rs_series (Z.to_nat window) xs !! i = Some (Fin 0)).
  { rewrite (rs_series_lookup _ _ _ _ _ Hg Hl). f_equal. by apply rs_cell_zero_loss. }
  split; [exact Hrs|].
  rewrite calculate_rsi_long by assumption.
  rewrite list_lookup_fmap, Hrs. reflexivity.
Qed.

(** C2, as the code has it. On a series of at least [window+1] points
    (and a window the rolling mean accepts), at every position where
    the trailing average of the losses is zero, the relative strength is
    taken to be 0 and the RSI at that position is 0. *)
Theorem rsi_is_zero_where_average_loss_is_zero
    (xs : list Q) (window : Z) (i : nat) (l : Q) :
  (1 <= window)%Z -> (window + 1 <= Z.of_nat (length xs))%Z ->
  avg_loss (Z.to_nat window) xs !! i = Some l -> l == 0 ->
  rs_series (Z.to_nat window) xs !! i = Some (Fin 0) /\
  calculate_rsi (Some xs) window !! i = Some (Fin 0).
Proof. apply rsi_at_zero_loss. Qed.

(** *** A constant series has no losses *)

Lemma diff_from_constant (c prev : Q) (xs : list Q) :
  prev == c -> Forall (fun x => x == c) xs ->
  Forall (fun d => loss_cell d == 0) (diff_from prev xs).
Proof.
  intros Hp Hxs. revert prev Hp.
  induction Hxs as [|x xs Hx _ IH]; intros prev Hp; simpl; constructor.
  - simpl. unfold is_neg.
    assert (Hd : x - prev == 0) by (rewrite Hx, Hp; ring).
    destruct (Qle_bool 0 (x - prev)) eqn:Hle; simpl; [reflexivity|].
    rewrite Hd. reflexivity.
  - by apply IH.
Qed.

Lemma constant_series_no_loss (c : Q) (w : nat) (xs : list Q) :
  Forall (fun x => x == c) xs -> Forall (fun l => l == 0) (avg_loss w xs).
Proof.
  intros Hxs. apply rolling_mean_zero, Forall_fmap.
  destruct Hxs as [|x xs Hx Hxs]; simpl; constructor.
  - reflexivity.
  - by apply (diff_from_constant c).
Qed.

(** C3, as the code has it. Every value [calculate_rsi] returns lies in
    [[0,100]]; on fewer than [window+1] points it returns the constant
    series 50; on a constant series of at least [window+1] points (and a
    window the rolling mean accepts) it returns the constant series 0. *)
Theorem rsi_range_short_input_and_constant_input (xs : list Q) (window : Z) :
  Forall (fun v => exists q, v = Fin q /\ 0 <= q /\ q <= 100)
         (calculate_rsi (Some xs) window) /\
  ((Z.of_nat (length xs) < window + 1)%Z ->
   calculate_rsi (Some xs) window = const_series 50 xs) /\
  (forall c, (1 <= window)%Z -> (window + 1 <= Z.of_nat (length xs))%Z ->
   Forall (fun x => x == c) xs ->
   calculate_rsi (Some xs) window = const_series 0 xs).
Proof.
  split; [|split].
  - assert (Hconst : Forall (fun v => exists q, v = Fin q /\ 0 <= q /\ q <= 100)
                            (const_series 50 xs)).
    { apply Forall_fmap, Forall_forall. intros x _. exists 50.
      split; [reflexivity|split; discriminate]. }
    destruct (Z.lt_ge_cases (Z.of_nat (length xs)) (window + 1)) as [Hs|Hl].
    { by rewrite calculate_rsi_short. }
    destruct (Z.lt_ge_cases window 1) as [Hw|Hw].
    { by rewrite calculate_rsi_rejected_window. }
    rewrite calculate_rsi_long by lia.
    apply Forall_fmap, Forall_lookup. intros i y Hy. simpl.
    unfold rs_series in Hy.
    apply lookup_zip_with_Some in Hy as (g & l & -> & Hg & Hl').
    destruct (rs_cell_nonneg g l) as (q & -> & Hq).
    + exact (proj1 (Forall_lookup _ _) (avg_gain_nonneg _ xs) _ _ Hg).
    + exact (proj1 (Forall_lookup _ _) (avg_loss_nonneg _ xs) _ _ Hl').
    + by apply rsi_cell_bounds.
  - apply calculate_rsi_short.
  - intros c H1 H2 Hc. apply list_eq. intros i.
    destruct (decide (i < length xs)%nat) as [Hi|Hi].
    + destruct (lookup_lt_is_Some_2 (avg_loss (Z.to_nat window) xs) i) as [l Hl].
      { by rewrite avg_loss_length. }
      destruct (rsi_at_zero_loss xs window i l H1 H2 Hl) as [_ ->].
      { exact (proj1 (Forall_lookup _ _) (constant_series_no_loss c _ xs Hc) _ _ Hl). }
      unfold const_series. rewrite list_lookup_fmap.
      destruct (lookup_lt_is_Some_2 xs i Hi) as [x ->]. reflexivity.
    + rewrite !lookup_ge_None_2; [reflexivity| |].
      * unfold const_series. rewrite length_fmap. lia.
      * rewrite calculate_rsi_length. lia.
Qed.

(** *** Simple moving average *)

Lemma calculate_sma_long (xs : list Q) (window : Z) :
  (1 <= window)%Z -> (window <= Z.of_nat (length xs))%Z ->
  calculate_sma (Some xs) window = Fin <$> rolling_mean (Z.to_nat window) xs.
Proof.
  intros H1 H2. unfold calculate_sma, rolling_ok.
  destruct (Z.ltb_spec (Z.of_nat (length xs)) window); [lia|].
  destruct (Z.leb_spec 1 window); [reflexivity|lia].
Qed.

Lemma calculate_sma_undefined (xs : list Q) (window : Z) :
  (Z.of_nat (length xs) < window)%Z \/ (window < 1)%Z ->
  calculate_sma (Some xs) window = nan_series xs.
Proof.
  intros H. unfold calculate_sma, rolling_ok.
  destruct (Z.ltb_spec (Z.of_nat (length xs)) window); [reflexivity|].
  destruct (Z.leb_spec 1 window); [lia|reflexivity].
Qed.

(** C4, as the code has it. [calculate_sma] returns a series as long as
    its input and never raises. When the input has at least [window]
    points (and the window is at least 1), the value at each of the
    first [window-1] positions is the mean of all points so far and at
    every later position the mean of the trailing [window] points. When
    the input has fewer than [window] points, every value is NaN (so the
    result is empty only for an empty input). *)
Theorem sma_partial_then_trailing_window (xs : list Q) (window : Z) :
  length (calculate_sma (Some xs) window) = length xs /\
  calculate_sma None window = [] /\
  ((Z.of_nat (length xs) < window)%Z \/ (window < 1)%Z ->
   calculate_sma (Some xs) window = nan_series xs) /\
  ((1 <= window)%Z -> (window <= Z.of_nat (length xs))%Z ->
   forall i, (i < length xs)%nat ->
     ((Z.of_nat i < window - 1)%Z ->
      calculate_sma (Some xs) window !! i = Some (Fin (mean (take (S i) xs)))) /\
     ((window - 1 <= Z.of_nat i)%Z ->
      let trailing := drop (S i - Z.to_nat window) (take (S i) xs) in
      length trailing = Z.to_nat window /\
      calculate_sma (Some xs) window !! i = Some (Fin (mean trailing)))).
Proof.
  split; [|split; [reflexivity|split; [apply calculate_sma_undefined|]]].
  - unfold calculate_sma, nan_series.
    repeat case_match; by rewrite ?length_fmap, ?rolling_mean_length.
  - intros H1 H2 i Hi. rewrite calculate_sma_long by assumption.
    rewrite list_lookup_fmap, rolling_mean_lookup by exact Hi. simpl.
    split.
    + intros Hp. rewrite window_partial by lia. reflexivity.
    + intros Hf. split; [|reflexivity].
      apply window_full_length; lia.
Qed.

End IndicatorClaims.

(** C2 fails as stated: on rising prices the average loss is zero at
    every position and the RSI there is 0, not 100. *)
Lemma rsi_not_100_on_rising_prices :
  exists l,
    Indicators.avg_loss 2 [1; 2; 3]%Q !! 2%nat = Some l /\ (l == 0)%Q /\
    Indicators.calculate_rsi (Some [1; 2; 3]%Q) 2 !! 2%nat = Some (Indicators.Fin 0) /\
    ~ (0 == 100)%Q.
Proof.
  eexists. split; [reflexivity|].
  split; [vm_compute; reflexivity|].
  split; [reflexivity|discriminate].
Qed.

Lemma rsi_is_zero_witness :
  Indicators.calculate_rsi (Some [3; 4; 6; 5]%Q) 2 !! 1%nat = Some (Indicators.Fin 0).
Proof.
  refine (proj2 (rsi_is_zero_where_average_loss_is_zero
                   [3; 4; 6; 5]%Q 2 1 (Indicators.mean [- 0; - 0]%Q) _ _ _ _));
    [lia|simpl; lia|reflexivity|reflexivity].
Defined.

(** C3 fails as stated: a constant series long enough for the window
    gets 0 everywhere, not 50. *)
Lemma rsi_of_constant_series_is_not_50 :
  Indicators.calculate_rsi (Some [1; 1; 1]%Q) 2
    = [Indicators.Fin 0; Indicators.Fin 0; Indicators.Fin 0] /\
  ~ (0 == 50)%Q.
Proof. split; [reflexivity|discriminate]. Qed.

Lemma rsi_range_witness :
  Indicators.calculate_rsi (Some [7; 7]%Q) 14 = Indicators.const_series 50 [7; 7]%Q /\
  Indicators.calculate_rsi (Some [7; 7; 7]%Q) 2 = Indicators.const_series 0 [7; 7; 7]%Q.
Proof.
  pose proof (rsi_range_short_input_and_constant_input [7; 7]%Q 14) as (_ & Hs & _).
  pose proof (rsi_range_short_input_and_constant_input [7; 7; 7]%Q 2) as (_ & _ & Hc).
  split.
  - apply Hs. simpl. lia.
  - apply (Hc 7%Q); [lia|simpl; lia|].
    repeat constructor.
Defined.

(** C4 fails as stated: two points under a window of three give NaN at
    both positions rather than the partial means, and a single point
    under a window of one gives that point rather than nothing. *)
Lemma sma_guard_is_the_window_not_two :
  Indicators.calculate_sma (Some [1; 2]%Q) 3 = [Indicators.NaN; Indicators.NaN] /\
  Indicators.calculate_sma (Some [5]%Q) 1 = [Indicators.Fin 5].
Proof. split; reflexivity. Qed.

Lemma sma_witness :
  Indicators.calculate_sma (Some [1; 2; 3; 4]%Q) 2 !! 0%nat
    = Some (Indicators.Fin (Indicators.mean [1]%Q)) /\
  Indicators.calculate_sma (Some [1; 2; 3; 4]%Q) 2 !! 3%nat
    = Some (Indicators.Fin (Indicators.mean [3; 4]%Q)) /\
  Indicators.calculate_sma (Some [1; 2]%Q) 3 = Indicators.nan_series [1; 2]%Q.
Proof.
  pose proof (sma_partial_then_trailing_window [1; 2; 3; 4]%Q 2) as (_ & _ & _ & H).
  pose proof (sma_partial_then_trailing_window [1; 2]%Q 3) as (_ & _ & Hn & _).
  assert (H1 : (1 <= 2)%Z) by lia.
  assert (H2 : (2 <= Z.of_nat (length [1; 2; 3; 4]%Q))%Z) by (simpl; lia).
  assert (H0 : (0 < length [1; 2; 3; 4]%Q)%nat) by (simpl; lia).
  assert (H3 : (3 < length [1; 2; 3; 4]%Q)%nat) by (simpl; lia).
  split; [|split].
  - apply (proj1 (H H1 H2 0%nat H0)). simpl. lia.
  - apply (proj2 (H H1 H2 3%nat H3)). simpl. lia.
  - apply Hn. left. simpl. lia.
Defined.

(** ** Persistence gateway: deduplicated read *)

Section Dedup.
Import DataProcessor Database.

Lemma insert_desc_perm (c : coin) (l : list coin) :
  Permutation (insert_desc c l) (c :: l).
Proof.
  induction l as [|c' l IH]; simpl; [reflexivity|].
  destruct (extracted_at c' <=? extracted_at c); [reflexivity|].
  rewrite IH. apply perm_swap.
Qed.

Lemma order_desc_perm (l : list coin) : Permutation (order_desc l) l.
Proof.
  induction l as [|c l IH]; simpl; [reflexivity|].
  rewrite insert_desc_perm. by constructor.
Qed.

Lemma insert_desc_sorted (c : coin) (l : list coin) :
  StronglySorted newer_or_same l -> StronglySorted newer_or_same (insert_desc c l).
Proof.
  induction 1 as [|c' l Hs IH Hall]; simpl.
  - repeat constructor.
  - destruct (Z.leb_spec (extracted_at c') (extracted_at c)) as [Hle|Hgt].
    + constructor; [by constructor|]. constructor; [exact Hle|].
      eapply Forall_impl; [exact Hall|]. unfold newer_or_same. intros x Hx. lia.
    + constructor; [exact IH|].
      rewrite insert_desc_perm. constructor; [unfold newer_or_same; lia|exact Hall].
Qed.

Lemma order_desc_sorted (l : list coin) : StronglySorted newer_or_same (order_desc l).
Proof.
  induction l as [|c l IH]; simpl; [constructor|]. by apply insert_desc_sorted.
Qed.

Lemma not_in_spec (k : string) (seen : list (string * coin)) :
  not_in k seen = true <-> k ∉ seen.*1.
Proof.
  unfold not_in. rewrite negb_true_iff.
  induction seen as [|[k' c] seen IH]; simpl.
  - split; [intros _; apply not_elem_of_nil|reflexivity].
  - rewrite orb_false_iff, IH, not_elem_of_cons.
    destruct (String.eqb_spec k' k) as [Heq|Hne].
    + split; intros [H1 H2]; [discriminate|]. exfalso. by apply H1.
    + split; intros [H1 H2]; (split; [|exact H2]); [|reflexivity].
      intros Hk. by apply Hne.
Qed.

Lemma unique_loop_keys (rows : list coin) (seen : list (string * coin)) :
  NoDup seen.*1 -> NoDup (unique_loop rows seen).*1.
Proof.
  revert seen. induction rows as [|c rows IH]; intros seen Hnd; simpl; [exact Hnd|].
  destruct (not_in (coin_id c) seen) eqn:Hin; [|by apply IH].
  apply IH. rewrite fmap_app. apply NoDup_app. split; [exact Hnd|].
  split; [|apply NoDup_singleton].
  intros k Hk Hk'. apply list_elem_of_singleton in Hk'. simpl in Hk'. subst k.
  apply not_in_spec in Hin. contradiction.
Qed.

(** Every entry the loop ends with was there before, or is the first row
    of an identifier that was not. *)
Lemma unique_loop_entries (rows : list coin) (seen : list (string * coin)) (e : string * coin) :
  e ∈ unique_loop rows seen ->
  e ∈ seen \/ ((e.1 ∉ seen.*1) /\ first_of e.1 rows = Some e.2).
Proof.
  revert seen. induction rows as [|c rows IH]; intros seen He; simpl in He; [by left|].
  destruct (not_in (coin_id c) seen) eqn:Hin.
  - apply not_in_spec in Hin.
    destruct (IH _ He) as [Hold|[Hnew Hfirst]].
    + apply elem_of_app in Hold as [Hold|Hold]; [by left|].
      apply list_elem_of_singleton in Hold. subst e. right. simpl.
      split; [exact Hin|]. unfold first_of. simpl. by rewrite String.eqb_refl.
    + right. rewrite fmap_app in Hnew. apply not_elem_of_app in Hnew as [Hn1 Hn2].
      split; [exact Hn1|]. unfold first_of. simpl.
      destruct (String.eqb_spec (coin_id c) e.1) as [Heq|]; [|exact Hfirst].
      exfalso. apply Hn2. simpl. rewrite Heq. apply list_elem_of_singleton. reflexivity.
  - destruct (IH _ He) as [Hold|[Hnew Hfirst]]; [by left|].
    right. split; [exact Hnew|]. unfold first_of. simpl.
    destruct (String.eqb_spec (coin_id c) e.1) as [Heq|]; [|exact Hfirst].
    exfalso. apply not_in_spec in Hnew. rewrite <- Heq in Hnew. congruence.
Qed.

(** Every identifier among the rows ends up as a key. *)
Lemma unique_loop_complete (rows : list coin) (seen : list (string * coin)) (k : string) :
  k ∈ seen.*1 \/ k ∈ coin_id <$> rows -> k ∈ (unique_loop rows seen).*1.
Proof.
  revert seen. induction rows as [|c rows IH]; intros seen Hk; simpl.
  - destruct Hk as [Hk|Hk]; [exact Hk|]. by apply elem_of_nil in Hk.
  - destruct (not_in (coin_id c) seen) eqn:Hin; apply IH.
    + rewrite fmap_app, elem_of_app. simpl.
      destruct Hk as [Hk|Hk]; [by left; left|].
      apply elem_of_cons in Hk as [->|Hk]; [|by right].
      left. right. apply list_elem_of_singleton. reflexivity.
    + destruct Hk as [Hk|Hk]; [by left|].
      apply elem_of_cons in Hk as [->|Hk]; [|by right].
      left. destruct (decide (coin_id c ∈ seen.*1)) as [|Hn]; [assumption|].
      apply not_in_spec in Hn. congruence.
Qed.

Lemma first_of_sorted (k : string) (rows : list coin) (r : coin) :
  StronglySorted newer_or_same rows -> first_of k rows = Some r ->
  r ∈ rows /\ coin_id r = k /\
  forall r', r' ∈ rows -> coin_id r' = k -> extracted_at r' <= extracted_at r.
Proof.
  unfold first_of. induction 1 as [|c rows Hs IH Hall]; simpl; [discriminate|].
  destruct (String.eqb_spec (coin_id c) k) as [Hk|Hk].
  - intros [= <-]. split; [apply list_elem_of_here|]. split; [exact Hk|].
    intros r' Hr' _. apply elem_of_cons in Hr' as [->|Hr']; [lia|].
    exact (proj1 (Forall_forall _ _) Hall _ Hr').
  - intros Hf. destruct (IH Hf) as (Hin & Hid & Hnew).
    split; [by apply list_elem_of_further|]. split; [exact Hid|].
    intros r' Hr' Hk'. apply elem_of_cons in Hr' as [->|Hr']; [congruence|].
    by apply Hnew.
Qed.

(** C9. Whatever rows the table holds, [get_coins] returns no two rows
    with the same [coin_id]; every row it returns is a row of the table
    and no row of the table with that [coin_id] was extracted later; and
    when the query succeeds every [coin_id] of the table is returned. *)
Theorem get_coins_unique_and_newest (ds : datastore) (t : table) :
  NoDup (coin_id <$> get_coins ds t) /\
  (forall r, r ∈ get_coins ds t ->
     r ∈ t /\
     forall r', r' ∈ t -> coin_id r' = coin_id r -> extracted_at r' <= extracted_at r) /\
  (select_ok ds = true ->
   forall r, r ∈ t -> coin_id r ∈ coin_id <$> get_coins ds t).
Proof.
  unfold get_coins. destruct (select_ok ds); cycle 1.
  { split; [constructor|]. split; [|discriminate].
    intros r Hr. by apply elem_of_nil in Hr. }
  assert (Hkey : forall e, e ∈ unique_loop (order_desc t) [] ->
                 first_of e.1 (order_desc t) = Some e.2).
  { intros e He. destruct (unique_loop_entries _ _ _ He) as [Hn|[_ Hf]]; [|exact Hf].
    by apply elem_of_nil in Hn. }
  assert (Hrow : forall e, e ∈ unique_loop (order_desc t) [] ->
                 e.2 ∈ t /\ coin_id e.2 = e.1 /\
                 forall r', r' ∈ t -> coin_id r' = e.1 ->
                            extracted_at r' <= extracted_at e.2).
  { intros e He.
    destruct (first_of_sorted _ _ _ (order_desc_sorted t) (Hkey e He))
      as (Hin & Hid & Hnew).
    split; [by rewrite <- (order_desc_perm t)|]. split; [exact Hid|].
    intros r' Hr' Hk. apply Hnew; [|exact Hk]. by rewrite (order_desc_perm t). }
  assert (Hids : coin_id <$> (unique_loop (order_desc t) []).*2
                 = (unique_loop (order_desc t) []).*1).
  { rewrite <- list_fmap_compose. apply list_fmap_ext.
    intros i e He. simpl. apply list_elem_of_lookup_2 in He.
    by destruct (Hrow e He) as (_ & -> & _). }
  split; [|split].
  - rewrite Hids. apply unique_loop_keys. constructor.
  - intros r Hr. apply list_elem_of_fmap in Hr as (e & -> & He).
    destruct (Hrow e He) as (Hin & Hid & Hnew).
    split; [exact Hin|]. intros r' Hr' Hk. apply Hnew; congruence.
  - intros _ r Hr. rewrite Hids. apply unique_loop_complete. right.
    apply list_elem_of_fmap_2. by rewrite (order_desc_perm t).
Qed.

End Dedup.

(** Two rows of one identifier: the later one is returned, alone. *)
Lemma get_coins_witness :
  Database.get_coins (Database.atomic_store true) [Database.row_at 1; Database.row_at 2]
  = [Database.row_at 2] /\
  forall r', r' ∈ [Database.row_at 1; Database.row_at 2] ->
    DataProcessor.coin_id r' = "bitcoin" ->
    DataProcessor.extracted_at r' <= 2.
Proof.
  split; [reflexivity|].
  pose proof (get_coins_unique_and_newest (Database.atomic_store true)
                [Database.row_at 1; Database.row_at 2]) as (_ & Hnew & _).
  exact (proj2 (Hnew (Database.row_at 2) (list_elem_of_here _ _))).
Defined.

(** ** Pipeline orchestrator *)

Section Orchestrator.
Import Py DataProcessor Database ETLPipeline.
#[local] Arguments save_coins : simpl never.

Lemma atomic_store_is_atomic (reachable : bool) : atomic (atomic_store reachable).
Proof.
  intros t batch t'. unfold atomic_store; simpl.
  destruct reachable; [discriminate|]. by intros [= <-].
Qed.

Lemma save_coins_failure (ds : datastore) (t : table) (batch : list coin) (t' : table) :
  atomic ds -> save_coins ds t batch = (false, t') -> t' = t.
Proof.
  intros Hat. unfold save_coins. destruct batch as [|c batch]; [by intros [= <-]|].
  destruct (execute_upsert ds t (c :: batch)) as [t'' returned] eqn:Hup.
  intros [= -> ->]. by apply (Hat _ _ _ Hup).
Qed.


End Orchestrator.


(** ** Historical cache *)

Section HistoricalCache.
Import Py ApiHandler.

Variables (response : exc payload) (now_check now_store : Z).
Variables (self : api) (coin_id : string) (days : Z).

Let result := (get_historical_data response now_check now_store self coin_id days).1.
Let self' := (get_historical_data response now_check now_store self coin_id days).2.

(** A fresh entry answers the call and nothing changes. *)
Lemma cache_hit (e : entry) :
  cache self !! cache_key coin_id days = Some e -> now_check - time e < ttl ->
  get_historical_data response now_check now_store self coin_id days
  = (Some (data e), self).
Proof.
  intros He Hfresh. unfold get_historical_data. rewrite He.
  destruct (Z.ltb_spec (now_check - time e) ttl); [reflexivity|lia].
Qed.

(** The call either leaves the object alone (a hit), or sends one
    request and then fails without touching the cache or succeeds and
    replaces the entry of its key. *)
Lemma get_historical_data_cases :
  (exists e, cache self !! cache_key coin_id days = Some e /\
             result = Some (data e) /\ self' = self) \/
  (requests self' = requests self ++ [(coin_id, days)] /\
   ((result = None /\ cache self' = cache self) \/
    (exists d ohlc, response = Ok d /\ _process_historical_data d days = Ok ohlc /\
       result = Some ohlc /\
       cache self' = <[cache_key coin_id days := {| time := now_store; data := ohlc |}]>
                       (cache self)))).
Proof.
  subst result self'. unfold get_historical_data.
  assert (Hfetch :
    forall r,
      r = (let self1 := {| cache := cache self;
                           requests := requests self ++ [(coin_id, days)] |} in
           match bind response (fun d => _process_historical_data d days) with
           | Raise => (None, self1)
           | Ok ohlc =>
               (Some ohlc,
                {| cache := <[cache_key coin_id days :=
                               {| time := now_store; data := ohlc |}]> (cache self1);
                   requests := requests self1 |})
           end) ->
      requests r.2 = requests self ++ [(coin_id, days)] /\
      ((r.1 = None /\ cache r.2 = cache self) \/
       (exists d ohlc, response = Ok d /\ _process_historical_data d days = Ok ohlc /\
          r.1 = Some ohlc /\
          cache r.2 = <[cache_key coin_id days := {| time := now_store; data := ohlc |}]>
                        (cache self)))).
  { intros r ->. cbv zeta.
    destruct response as [d|]; simpl; [|by split; [|left]].
    destruct (_process_historical_data d days) as [ohlc|] eqn:Hp; simpl;
      [|by split; [|left]].
    split; [reflexivity|]. right. by exists d, ohlc. }
  destruct (cache self !! cache_key coin_id days) as [e|] eqn:He.
  - destruct (now_check - time e <? ttl).
    + left. by exists e.
    + right. by apply Hfetch.
  - right. by apply Hfetch.
Qed.

(** C6. While the entry of a key is younger than five minutes, a fetch
    for that key returns the cached bars and sends no request; in
    particular the fetch that follows a successful one within that time
    returns the same bars without a second request. A fetch that fails
    leaves the cache exactly as it was, and the cache changes only by
    the replacement of the key's entry with the bars of a response that
    was received and resampled in full. *)
Theorem historical_cache_hits_and_failures :
  (forall e, cache self !! cache_key coin_id days = Some e ->
             now_check - time e < ttl ->
             result = Some (data e) /\ self' = self) /\
  (forall bars response2 now_check2 now_store2,
     requests self' <> requests self -> result = Some bars ->
     now_check2 - now_store < ttl ->
     get_historical_data response2 now_check2 now_store2 self' coin_id days
     = (Some bars, self')) /\
  (result = None -> cache self' = cache self) /\
  (cache self' <> cache self ->
   exists d ohlc, response = Ok d /\ _process_historical_data d days = Ok ohlc /\
     result = Some ohlc /\
     cache self' = <[cache_key coin_id days := {| time := now_store; data := ohlc |}]>
                     (cache self)).
Proof.
  split; [|split; [|split]].
  - intros e He Hfresh. subst result self'. by rewrite (cache_hit e He Hfresh).
  - intros bars response2 now_check2 now_store2 Hsent Hres Hfresh.
    destruct get_historical_data_cases
      as [(e & _ & _ & Hsame)|[_ [[Hnone _]|(d & ohlc & _ & _ & Hsome & Hcache)]]].
    + rewrite Hsame in Hsent. contradiction.
    + congruence.
    + assert (bars = ohlc) as -> by congruence.
      unfold get_historical_data. rewrite Hcache, lookup_insert_eq. simpl.
      destruct (Z.ltb_spec (now_check2 - now_store) ttl); [reflexivity|lia].
  - intros Hnone.
    destruct get_historical_data_cases
      as [(e & _ & _ & Hsame)|[_ [[_ Hcache]|(d & ohlc & _ & _ & Hsome & _)]]].
    + by rewrite Hsame.
    + exact Hcache.
    + congruence.
  - intros Hchanged.
    destruct get_historical_data_cases
      as [(e & _ & _ & Hsame)|[_ [[_ Hcache]|Hstored]]].
    + by rewrite Hsame in Hchanged.
    + contradiction.
    + exact Hstored.
Qed.

End HistoricalCache.

(** ** OHLC resampler *)

Section Resampler.
Import Py ApiHandler.

(** *** Ordering the samples *)

Lemma insert_by_time_perm (s : sample) (l : list sample) :
  Permutation (insert_by_time s l) (s :: l).
Proof.
  induction l as [|s' l IH]; simpl; [reflexivity|].
  destruct (s.1 <=? s'.1); [reflexivity|]. rewrite IH. apply perm_swap.
Qed.

Lemma sort_by_time_perm (l : list sample) : Permutation (sort_by_time l) l.
Proof.
  induction l as [|s l IH]; simpl; [reflexivity|].
  rewrite insert_by_time_perm. by constructor.
Qed.

Lemma insert_by_time_sorted (s : sample) (l : list sample) :
  StronglySorted earlier_or_same l -> StronglySorted earlier_or_same (insert_by_time s l).
Proof.
  induction 1 as [|s' l Hs IH Hall]; simpl.
  - repeat constructor.
  - destruct (Z.leb_spec s.1 s'.1) as [Hle|Hgt].
    + constructor; [by constructor|]. constructor; [exact Hle|].
      eapply Forall_impl; [exact Hall|]. unfold earlier_or_same. intros x Hx. lia.
    + constructor; [exact IH|].
      rewrite insert_by_time_perm. constructor; [unfold earlier_or_same; lia|exact Hall].
Qed.

Lemma sort_by_time_sorted (l : list sample) :
  StronglySorted earlier_or_same (sort_by_time l).
Proof.
  induction l as [|s l IH]; simpl; [constructor|]. by apply insert_by_time_sorted.
Qed.

(** Samples that arrive in time order stay as they are. *)
Lemma sort_by_time_id (l : list sample) :
  StronglySorted earlier_or_same l -> sort_by_time l = l.
Proof.
  induction 1 as [|s l Hs IH Hall]; simpl; [reflexivity|].
  rewrite IH. destruct Hall as [|s' l Hle _]; simpl; [reflexivity|].
  unfold earlier_or_same in Hle. destruct (Z.leb_spec s.1 s'.1); [reflexivity|lia].
Qed.

Lemma sorted_last_latest (l : list sample) (d s : sample) :
  StronglySorted earlier_or_same l -> s ∈ l -> s.1 <= (List.last l d).1.
Proof.
  intros Hl. revert s d. induction Hl as [|x l Hs IH Hall]; intros s d Hin.
  - by apply elem_of_nil in Hin.
  - destruct l as [|y l]; simpl.
    + apply list_elem_of_singleton in Hin as ->. lia.
    + apply elem_of_cons in Hin as [->|Hin].
      * transitivity y.1.
        -- exact (Forall_inv Hall).
        -- apply (IH y d). apply list_elem_of_here.
      * by apply (IH s d).
Qed.

(** *** The index of the resampled frame *)

Lemma bucket_width_pos (days : Z) : 0 < bucket_width days.
Proof. unfold bucket_width. repeat case_match; lia. Qed.

Lemma bucket_of_mono (w a b : Z) : 0 < w -> a <= b -> bucket_of w a <= bucket_of w b.
Proof.
  intros Hw Hab. unfold bucket_of.
  apply Z.mul_le_mono_nonneg_r; [lia|]. by apply Z.div_le_mono.
Qed.

(** A timestamp lies in the bin that starts at its [bucket_of]. *)
Lemma bucket_of_range (w t : Z) : 0 < w -> bucket_of w t <= t < bucket_of w t + w.
Proof.
  intros Hw. unfold bucket_of.
  pose proof (Z.div_mod t w ltac:(lia)). pose proof (Z.mod_pos_bound t w Hw). lia.
Qed.

Lemma bins_from_sorted (w lo : Z) (a n : nat) :
  0 < w -> StronglySorted Z.lt ((fun k => lo + Z.of_nat k * w) <$> seq a n).
Proof.
  intros Hw. revert a. induction n as [|n IH]; intros a; simpl; constructor.
  - apply IH.
  - apply Forall_fmap, Forall_forall. intros k Hk. simpl.
    apply elem_of_seq in Hk. nia.
Qed.

Lemma bins_sorted (w lo hi : Z) : 0 < w -> StronglySorted Z.lt (bins w lo hi).
Proof. intros Hw. by apply bins_from_sorted. Qed.

Lemma bin_labels_sorted (w : Z) (sorted : list sample) :
  0 < w -> StronglySorted Z.lt (bin_labels w sorted).
Proof.
  intros Hw. destruct sorted; simpl; [constructor|]. by apply bins_sorted.
Qed.

(** Every sample of an ordered frame has its bin among the labels. *)
Lemma bin_labels_cover (w : Z) (sorted : list sample) (s : sample) :
  0 < w -> StronglySorted earlier_or_same sorted -> s ∈ sorted ->
  bucket_of w s.1 ∈ bin_labels w sorted.
Proof.
  intros Hw Hs Hin. destruct sorted as [|x l] eqn:Hl; [by apply elem_of_nil in Hin|].
  unfold bin_labels, bins. rewrite <- Hl in *.
  assert (Hlo : x.1 <= s.1).
  { rewrite Hl in Hs, Hin. apply elem_of_cons in Hin as [->|Hin]; [lia|].
    inversion Hs as [|? ? _ Hall]; subst.
    exact (proj1 (Forall_forall _ _) Hall _ Hin). }
  pose proof (sorted_last_latest sorted x s Hs Hin) as Hhi.
  apply list_elem_of_fmap.
  exists (Z.to_nat (s.1 / w - x.1 / w)).
  pose proof (Z.div_le_mono _ _ w Hw Hlo) as Hd1.
  pose proof (Z.div_le_mono _ _ w Hw Hhi) as Hd2.
  split.
  - unfold bucket_of. rewrite Z2Nat.id by lia. ring.
  - apply elem_of_seq. split; [lia|]. simpl.
    unfold bucket_of.
    replace ((List.last sorted x).1 / w * w - x.1 / w * w)
      with (((List.last sorted x).1 / w - x.1 / w) * w) by ring.
    rewrite Z.div_mul by lia. lia.
Qed.

(** *** The rows *)

Lemma Qmax_either (x y : Q) : Qmax x y = x \/ Qmax x y = y.
Proof. unfold Qmax, GenericMinMax.gmax. destruct (x ?= y)%Q; auto. Qed.

Lemma Qmin_either (x y : Q) : Qmin x y = x \/ Qmin x y = y.
Proof. unfold Qmin, GenericMinMax.gmin. destruct (x ?= y)%Q; auto. Qed.

Lemma fold_max_spec (ps : list Q) (p : Q) :
  fold_left Qmax ps p ∈ p :: ps /\
  forall x, x ∈ p :: ps -> (x <= fold_left Qmax ps p)%Q.
Proof.
  revert p. induction ps as [|y ps IH]; intros p; simpl.
  - split; [apply list_elem_of_here|].
    intros x Hx. apply list_elem_of_singleton in Hx as ->. apply Qle_refl.
  - destruct (IH (Qmax p y)) as [Hin Hle]. split.
    + apply elem_of_cons in Hin as [Hin|Hin].
      * rewrite Hin. destruct (Qmax_either p y) as [-> | ->].
        -- apply list_elem_of_here.
        -- apply list_elem_of_further, list_elem_of_here.
      * by do 2 apply list_elem_of_further.
    + intros x Hx. apply elem_of_cons in Hx as [->|Hx].
      * eapply Qle_trans; [apply Q.le_max_l|]. apply Hle, list_elem_of_here.
      * apply elem_of_cons in Hx as [->|Hx].
        -- eapply Qle_trans; [apply Q.le_max_r|]. apply Hle, list_elem_of_here.
        -- by apply Hle, list_elem_of_further.
Qed.

Lemma fold_min_spec (ps : list Q) (p : Q) :
  fold_left Qmin ps p ∈ p :: ps /\
  forall x, x ∈ p :: ps -> (fold_left Qmin ps p <= x)%Q.
Proof.
  revert p. induction ps as [|y ps IH]; intros p; simpl.
  - split; [apply list_elem_of_here|].
    intros x Hx. apply list_elem_of_singleton in Hx as ->. apply Qle_refl.
  - destruct (IH (Qmin p y)) as [Hin Hle]. split.
    + apply elem_of_cons in Hin as [Hin|Hin].
      * rewrite Hin. destruct (Qmin_either p y) as [-> | ->].
        -- apply list_elem_of_here.
        -- apply list_elem_of_further, list_elem_of_here.
      * by do 2 apply list_elem_of_further.
    + intros x Hx. apply elem_of_cons in Hx as [->|Hx].
      * eapply Qle_trans; [|apply Q.le_min_l]. apply Hle, list_elem_of_here.
      * apply elem_of_cons in Hx as [->|Hx].
        -- eapply Qle_trans; [|apply Q.le_min_r]. apply Hle, list_elem_of_here.
        -- by apply Hle, list_elem_of_further.
Qed.

Lemma ohlc_of_some (t : Z) (vals : list Q) (b : bar) :
  ohlc_of t vals = Some b -> timestamp b = t /\ summarises vals b.
Proof.
  destruct vals as [|p rest]; simpl; [discriminate|]. intros [= <-]. simpl.
  split; [reflexivity|]. exists p, rest. simpl.
  destruct (fold_max_spec rest p) as [? ?]. destruct (fold_min_spec rest p) as [? ?].
  by repeat split.
Qed.

Lemma bucket_values_nonempty (w t : Z) (l : list sample) :
  bucket_values w t l <> [] <-> exists s, s ∈ l /\ bucket_of w s.1 = t.
Proof.
  unfold bucket_values, in_bucket. induction l as [|x l IH]; simpl.
  - split; [congruence|]. intros (s & Hs & _). by apply elem_of_nil in Hs.
  - destruct (Z.eqb_spec (bucket_of w x.1) t) as [Hx|Hx]; simpl.
    + split; [|discriminate]. intros _. exists x. split; [apply list_elem_of_here|exact Hx].
    + rewrite IH. split; intros (s & Hs & Hb); exists s; (split; [|exact Hb]).
      * by apply list_elem_of_further.
      * apply elem_of_cons in Hs as [->|Hs]; [contradiction|exact Hs].
Qed.

(** The rows of [resample(...).ohlc().dropna()]: one for each label
    whose bin holds a sample, in the order of the labels. *)
Lemma resample_ohlc_rows (w : Z) (ps : list sample) (b : bar) :
  b ∈ resample_ohlc w ps <->
  timestamp b ∈ bin_labels w (sort_by_time ps) /\
  ohlc_of (timestamp b) (bucket_values w (timestamp b) (sort_by_time ps)) = Some b.
Proof.
  unfold resample_ohlc. rewrite list_elem_of_omap. split.
  - intros (t & Ht & Hb). destruct (ohlc_of_some _ _ _ Hb) as [<- _]. by split.
  - intros [Ht Hb]. by exists (timestamp b).
Qed.

Lemma omap_labels_sorted {A} (f : Z -> option A) (key : A -> Z) (l : list Z) :
  (forall t r, f t = Some r -> key r = t) ->
  StronglySorted Z.lt l -> StronglySorted Z.lt (key <$> omap f l).
Proof.
  intros Hkey. induction 1 as [|t l Hs IH Hall]; simpl; [constructor|].
  destruct (f t) as [r|] eqn:Hr; [|exact IH].
  simpl. constructor; [exact IH|]. rewrite (Hkey _ _ Hr).
  apply Forall_fmap, Forall_forall. intros r' Hr'. simpl.
  apply list_elem_of_omap in Hr' as (t' & Ht' & Hf).
  rewrite (Hkey _ _ Hf). exact (proj1 (Forall_forall _ _) Hall _ Ht').
Qed.

Lemma resample_ohlc_sorted (w : Z) (ps : list sample) :
  0 < w -> StronglySorted Z.lt (timestamp <$> resample_ohlc w ps).
Proof.
  intros Hw. unfold resample_ohlc. apply omap_labels_sorted.
  - intros t r Hr. by destruct (ohlc_of_some _ _ _ Hr).
  - by apply bin_labels_sorted.
Qed.

(** *** The volume column *)

Lemma aligned_resample_sum (w t : Z) (vs : list sample) :
  t ∈ bin_labels w (sort_by_time vs) ->
  aligned (resample_sum w vs) t
  = Some (Indicators.qsum (bucket_values w t (sort_by_time vs))).
Proof.
  unfold aligned, resample_sum.
  induction (bin_labels w (sort_by_time vs)) as [|t' l IH]; intros Hin.
  - by apply elem_of_nil in Hin.
  - simpl. destruct (Z.eqb_spec t' t) as [->|Hne]; [reflexivity|].
    apply IH. apply elem_of_cons in Hin as [?|?]; [congruence|assumption].
Qed.

(** A bar whose bin lies outside the span of the volume samples gets
    NaN. *)
Lemma aligned_outside (w t : Z) (vs : list sample) :
  t ∉ bin_labels w (sort_by_time vs) -> aligned (resample_sum w vs) t = None.
Proof.
  unfold aligned, resample_sum.
  induction (bin_labels w (sort_by_time vs)) as [|t' l IH]; intros Hout; [reflexivity|].
  apply not_elem_of_cons in Hout as [Hne Hout].
  simpl. destruct (Z.eqb_spec t' t) as [->|_]; [contradiction|]. by apply IH.
Qed.

Lemma resample_ok (ps vs : list sample) (days : Z) :
  _process_historical_data {| prices := Some ps; total_volumes := Some vs |} days
  = Ok (set_volume (resample_sum (bucket_width days) vs)
          <$> resample_ohlc (bucket_width days) ps).
Proof. reflexivity. Qed.


End Resampler.


Lemma historical_cache_witness :
  let first := ApiHandler.get_historical_data (Py.Ok ApiHandler.chart) 0 0 ApiHandler.empty_api "bitcoin" 5 in
  let second := ApiHandler.get_historical_data Py.Raise ApiHandler.four_minutes ApiHandler.four_minutes
                  first.2 "bitcoin" 5 in
  second.1 = first.1 /\ first.1 <> None /\ second.2 = first.2 /\
  ApiHandler.requests second.2 = [("bitcoin", 5)].
Proof.
  cbv zeta.
  pose proof (historical_cache_hits_and_failures (Py.Ok ApiHandler.chart) 0 0 ApiHandler.empty_api "bitcoin" 5)
    as H.
  cbv zeta in H. destruct H as (_ & Hsecond & _ & _).
  rewrite (Hsecond _ Py.Raise ApiHandler.four_minutes ApiHandler.four_minutes ltac:(discriminate) eq_refl
             ltac:(unfold ApiHandler.four_minutes, ApiHandler.ttl; lia)).
  repeat split; discriminate.
Defined.

(* ===================================================================== *)
(** * Part III. Further properties of the code                            *)
(* ===================================================================== *)

(** ** Moving averages stay within the prices *)

Section Averages.
Import Indicators.
#[local] Open Scope Q_scope.

Lemma alpha_range (span : Z) : (1 <= span)%Z -> 0 < alpha span /\ alpha span <= 1.
Proof.
  intros Hs. unfold alpha.
  assert (Hd : 2 <= inject_Z span + 1).
  { assert (H1 : inject_Z 1 <= inject_Z span) by (rewrite <- Zle_Qle; lia).
    change (inject_Z 1) with 1 in H1. lra. }
  split.
  - apply Qlt_shift_div_l; lra.
  - apply Qle_shift_div_r; lra.
Qed.

Lemma ewm_from_within (a lo hi prev : Q) (xs : list Q) :
  0 < a -> a <= 1 -> lo <= prev -> prev <= hi -> within lo hi xs ->
  within lo hi (ewm_from a prev xs).
Proof.
  intros Ha0 Ha1 Hp1 Hp2 Hxs. revert prev Hp1 Hp2.
  assert (Hstep : forall p x, lo <= p -> p <= hi -> lo <= x -> x <= hi ->
            lo <= (1 - a) * p + a * x /\ (1 - a) * p + a * x <= hi).
  { intros p x Hp1' Hp2' Hx1 Hx2.
    pose proof (Qmult_le_0_compat (1 - a) (p - lo) ltac:(lra) ltac:(lra)).
    pose proof (Qmult_le_0_compat a (x - lo) ltac:(lra) ltac:(lra)).
    pose proof (Qmult_le_0_compat (1 - a) (hi - p) ltac:(lra) ltac:(lra)).
    pose proof (Qmult_le_0_compat a (hi - x) ltac:(lra) ltac:(lra)).
    split; lra. }
  induction Hxs as [|x xs [Hx1 Hx2] _ IH]; intros prev Hp1 Hp2; simpl; constructor.
  - by apply Hstep.
  - apply IH; by apply Hstep.
Qed.

Lemma qsum_bounds (lo hi : Q) (l : list Q) :
  within lo hi l ->
  inject_Z (Z.of_nat (length l)) * lo <= qsum l /\
  qsum l <= inject_Z (Z.of_nat (length l)) * hi.
Proof.
  induction 1 as [|x l [Hx1 Hx2] _ [IH1 IH2]]; simpl qsum.
  - change (inject_Z (Z.of_nat (length (@nil Q)))) with 0. split; lra.
  - rewrite length_cons, Nat2Z.inj_succ, <- Z.add_1_r, inject_Z_plus.
    change (inject_Z 1) with 1. split; lra.
Qed.

Lemma mean_within (lo hi : Q) (l : list Q) :
  l <> [] -> within lo hi l -> lo <= mean l /\ mean l <= hi.
Proof.
  intros Hne Hl. destruct (qsum_bounds lo hi l Hl) as [H1 H2]. unfold mean.
  assert (Hn : 0 < inject_Z (Z.of_nat (length l))).
  { destruct l; [contradiction|]. change 0 with (inject_Z 0).
    rewrite <- Zlt_Qlt. simpl. lia. }
  split.
  - apply Qle_shift_div_l; [exact Hn|]. lra.
  - apply Qle_shift_div_r; [exact Hn|]. lra.
Qed.

Lemma window_at_nonempty (w i : nat) (xs : list Q) :
  (1 <= w)%nat -> (i < length xs)%nat -> window_at w i xs <> [].
Proof.
  intros Hw Hi Hnil. apply (f_equal length) in Hnil.
  unfold window_at in Hnil. rewrite length_drop, length_take in Hnil.
  change (length (@nil Q)) with 0%nat in Hnil. lia.
Qed.



End Averages.



(** ** What the RSI and the MACD make of simple series *)

Section Oscillators.
Import Indicators.
#[local] Open Scope Q_scope.

(** The value of the long path at a position, from the two averages. *)
Lemma rsi_value (xs : list Q) (window : Z) (i : nat) (g l : Q) :
  (1 <= window)%Z -> (window + 1 <= Z.of_nat (length xs))%Z ->
  avg_gain (Z.to_nat window) xs !! i = Some g ->
  avg_loss (Z.to_nat window) xs !! i = Some l ->
  exists r,
    calculate_rsi (Some xs) window !! i = Some (Fin r) /\
    (l == 0 -> r == 0) /\
    (~ l == 0 -> r == 100 * g / (g + l)) /\
    0 <= r /\ r < 100.
Proof.
  intros H1 H2 Hg Hl.
  pose proof (proj1 (Forall_lookup _ _) (avg_gain_nonneg _ xs) _ _ Hg) as Hg0.
  pose proof (proj1 (Forall_lookup _ _) (avg_loss_nonneg _ xs) _ _ Hl) as Hl0.
  simpl in Hg0, Hl0.
  rewrite calculate_rsi_long by assumption.
  rewrite list_lookup_fmap, (rs_series_lookup _ _ _ _ _ Hg Hl). simpl.
  unfold rs_cell, replace_zero_nan, is_zero.
  destruct (Qeq_bool l 0) eqn:Hz.
  - exists 0. split; [reflexivity|]. split; [reflexivity|].
    apply Qeq_bool_iff in Hz. split; [intros Hn; contradiction|]. split; lra.
  - apply Qeq_bool_neq in Hz. simpl. unfold is_zero.
    assert (Hlpos : 0 < l) by (apply Qle_lteq in Hl0 as [?|Heq]; [assumption|];
                               symmetry in Heq; contradiction).
    destruct (Qeq_bool l 0) eqn:Hz'; [apply Qeq_bool_iff in Hz'; contradiction|].
    simpl.
    assert (Hq : 0 <= g / l) by (apply Qle_shift_div_l; lra).
    unfold rsi_cell, nsub, nadd, ndiv, is_zero.
    destruct (Qeq_bool (1 + g / l) 0) eqn:Hz''.
    { apply Qeq_bool_iff in Hz''. lra. }
    simpl. eexists. split; [reflexivity|].
    assert (Hinv : 0 < 100 / (1 + g / l)) by (apply Qlt_shift_div_l; lra).
    assert (Hle : 100 / (1 + g / l) <= 100).
    { apply Qle_shift_div_r; [lra|]. lra. }
    split; [intros; contradiction|]. split; [|split; lra].
    intros _. field. split; lra.
Qed.


Lemma diff_from_rising (prev : Q) (xs : list Q) :
  Sorted Qle (prev :: xs) -> Forall (fun d => loss_cell d == 0) (diff_from prev xs).
Proof.
  revert prev. induction xs as [|x xs IH]; intros prev Hs; simpl; constructor.
  - apply Sorted_inv in Hs as [_ Hhd]. apply HdRel_inv in Hhd.
    simpl. unfold is_neg.
    destruct (Qle_bool 0 (x - prev)) eqn:Hle; simpl; [reflexivity|].
    assert (H0 : 0 <= x - prev) by lra. apply Qle_bool_iff in H0. congruence.
  - apply IH. by apply Sorted_inv in Hs as [? _].
Qed.

Lemma diff_from_falling (prev : Q) (xs : list Q) :
  Sorted (fun a b => b <= a) (prev :: xs) -> Forall (fun d => gain_cell d == 0) (diff_from prev xs).
Proof.
  revert prev. induction xs as [|x xs IH]; intros prev Hs; simpl; constructor.
  - apply Sorted_inv in Hs as [_ Hhd]. apply HdRel_inv in Hhd.
    simpl. unfold is_pos.
    destruct (Qle_bool (x - prev) 0) eqn:Hle; simpl; [reflexivity|].
    assert (H0 : x - prev <= 0) by lra. apply Qle_bool_iff in H0. congruence.
  - apply IH. by apply Sorted_inv in Hs as [? _].
Qed.

(** X4. On a series that never falls, and on one that never rises, every
    value of the long path of [calculate_rsi] is 0: a steady climb and a
    steady decline get the same reading. *)
Theorem rsi_of_monotone_series_is_zero (xs : list Q) (window : Z) :
  (1 <= window)%Z -> (window + 1 <= Z.of_nat (length xs))%Z ->
  Sorted Qle xs \/ Sorted (fun a b => b <= a) xs ->
  length (calculate_rsi (Some xs) window) = length xs /\
  Forall (fun v => exists r, v = Fin r /\ r == 0) (calculate_rsi (Some xs) window).
Proof.
  intros H1 H2 Hmono. split; [apply calculate_rsi_length|].
  apply Forall_lookup. intros i v Hv.
  assert (Hi : (i < length xs)%nat).
  { apply lookup_lt_Some in Hv. by rewrite calculate_rsi_length in Hv. }
  destruct (lookup_lt_is_Some_2 (avg_gain (Z.to_nat window) xs) i) as [g Hg].
  { by rewrite avg_gain_length. }
  destruct (lookup_lt_is_Some_2 (avg_loss (Z.to_nat window) xs) i) as [l Hl].
  { by rewrite avg_loss_length. }
  destruct (rsi_value xs window i g l H1 H2 Hg Hl) as (r & Hr & Hz & Hnz & _).
  rewrite Hr in Hv. injection Hv as <-. exists r. split; [reflexivity|].
  destruct Hmono as [Hup|Hdown].
  - apply Hz.
    assert (Hall : Forall (fun l => l == 0) (avg_loss (Z.to_nat window) xs)).
    { apply rolling_mean_zero, Forall_fmap.
      destruct xs as [|x xs]; simpl; constructor; [reflexivity|].
      by apply diff_from_rising. }
    exact (proj1 (Forall_lookup _ _) Hall _ _ Hl).
  - assert (Hall : Forall (fun g => g == 0) (avg_gain (Z.to_nat window) xs)).
    { apply rolling_mean_zero, Forall_fmap.
      destruct xs as [|x xs]; simpl; constructor; [reflexivity|].
      by apply diff_from_falling. }
    pose proof (proj1 (Forall_lookup _ _) Hall _ _ Hg) as Hg0. cbv beta in Hg0.
    destruct (Qeq_dec l 0) as [Hl0|Hl0]; [by apply Hz|].
    rewrite (Hnz Hl0), Hg0. field. lra.
Qed.

(** *** Exponential averages of a flat series *)

Lemma ewm_from_length (a prev : Q) (xs : list Q) :
  length (ewm_from a prev xs) = length xs.
Proof.
  revert prev. induction xs as [|x xs IH]; intros prev; simpl; [reflexivity|].
  by rewrite IH.
Qed.

Lemma ewm_mean_length (span : Z) (xs : list Q) : length (ewm_mean span xs) = length xs.
Proof. destruct xs; simpl; [reflexivity|]. by rewrite ewm_from_length. Qed.

Lemma ewm_mean_within (span : Z) (lo hi : Q) (xs : list Q) :
  (1 <= span)%Z -> within lo hi xs -> within lo hi (ewm_mean span xs).
Proof.
  intros Hs Hxs. destruct (alpha_range span Hs) as [Ha0 Ha1].
  destruct Hxs as [|x xs [Hx1 Hx2] Hrest]; simpl; constructor; [by split|].
  by apply ewm_from_within.
Qed.

Lemma zip_minus_flat (c : Q) (l k : list Q) :
  within c c l -> within c c k -> within 0 0 (zip_with Qminus l k).
Proof.
  intros Hl. revert k. induction Hl as [|x l [Hx1 Hx2] _ IH]; intros k Hk; simpl.
  - constructor.
  - destruct Hk as [|y k [Hy1 Hy2] Hk]; constructor.
    + split; lra.
    + by apply IH.
Qed.

Lemma flat_cells (l : list Q) :
  within 0 0 l ->
  Forall (fun v => exists q, v = Fin q /\ q == 0) (fillna 0 <$> (Fin <$> l)).
Proof.
  intros Hl. rewrite <- list_fmap_compose. apply Forall_fmap.
  eapply Forall_impl; [exact Hl|]. intros q [Hq1 Hq2]. simpl.
  exists q. split; [reflexivity|]. by apply Qle_antisym.
Qed.

(** X5. On a flat series of at least [slow] points (all three spans at
    least 1) the MACD line, its signal line and the histogram are 0 at
    every position, and each is as long as the input. *)
Theorem macd_of_flat_prices_is_zero (xs : list Q) (c : Q) (fast slow signal : Z) :
  (1 <= fast)%Z -> (1 <= slow)%Z -> (1 <= signal)%Z ->
  (slow <= Z.of_nat (length xs))%Z -> within c c xs ->
  let zero := fun v => exists q, v = Fin q /\ q == 0 in
  Forall zero (calculate_macd (Some xs) fast slow signal).1.1 /\
  Forall zero (calculate_macd (Some xs) fast slow signal).1.2 /\
  Forall zero (calculate_macd (Some xs) fast slow signal).2 /\
  length (calculate_macd (Some xs) fast slow signal).1.1 = length xs /\
  length (calculate_macd (Some xs) fast slow signal).1.2 = length xs /\
  length (calculate_macd (Some xs) fast slow signal).2 = length xs.
Proof.
  intros Hf Hs Hg Hlen Hflat. cbv zeta. unfold calculate_macd, ewm_ok.
  destruct (Z.ltb_spec (Z.of_nat (length xs)) slow); [lia|].
  destruct (Z.leb_spec 1 fast); [|lia].
  destruct (Z.leb_spec 1 slow); [|lia].
  destruct (Z.leb_spec 1 signal); [|lia].
  simpl.
  assert (Hm : within 0 0 (macd_line fast slow xs)).
  { apply (zip_minus_flat c); by apply ewm_mean_within. }
  assert (Hsg : within 0 0 (signal_line fast slow signal xs)).
  { by apply ewm_mean_within. }
  assert (Hh : within 0 0 (histogram fast slow signal xs)).
  { by apply (zip_minus_flat 0). }
  assert (Lm : length (macd_line fast slow xs) = length xs).
  { unfold macd_line. rewrite length_zip_with, !ewm_mean_length. lia. }
  assert (Ls : length (signal_line fast slow signal xs) = length xs).
  { unfold signal_line. by rewrite ewm_mean_length. }
  repeat split; try by apply flat_cells.
  - by rewrite !length_fmap.
  - by rewrite !length_fmap.
  - rewrite !length_fmap. unfold histogram. rewrite length_zip_with. lia.
Qed.

End Oscillators.


Lemma rsi_monotone_witness :
  Forall (fun v => exists r, v = Indicators.Fin r /\ (r == 0)%Q)
         (Indicators.calculate_rsi (Some [5; 4; 4; 1]%Q) 2).
Proof.
  refine (proj2 (rsi_of_monotone_series_is_zero [5; 4; 4; 1]%Q 2 _ _ _));
    [lia|simpl; lia|].
  right. repeat constructor; discriminate.
Defined.

Lemma macd_flat_witness :
  Forall (fun v => exists q, v = Indicators.Fin q /\ (q == 0)%Q)
         (Indicators.calculate_macd (Some [7; 7; 7]%Q) 2 3 2).1.1.
Proof.
  refine (proj1 (macd_of_flat_prices_is_zero [7; 7; 7]%Q 7 2 3 2 _ _ _ _ _));
    [lia|lia|lia|simpl; lia|].
  repeat constructor; discriminate.
Defined.

(** ** What the transformer keeps and when it gives up *)

Section TransformerMore.
Import Py DataProcessor.
Variable rt : runtime.
Variable timestamp : Z.

Lemma upper_ascii_idem (c : ascii) : upper_ascii (upper_ascii c) = upper_ascii c.
Proof. destruct c as [[] [] [] [] [] [] [] []]; reflexivity. Qed.

Lemma upper_idem (s : string) : upper (upper s) = upper s.
Proof. induction s as [|c s IH]; simpl; [reflexivity|]. by rewrite upper_ascii_idem, IH. Qed.

Lemma process_coin_escaped (c : json) :
  process_coin rt timestamp c = Escaped <-> is_dict c = false.
Proof.
  split.
  - intros He. destruct c; try reflexivity.
    by apply (process_coin_dict rt timestamp) in He.
  - intros Hc. apply process_coin_not_dict. intros m ->. discriminate.
Qed.

Lemma process_loop_result (items : list json) (processed : list coin) :
  process_loop rt timestamp items processed =
    if forallb is_dict items
    then Ok (processed ++ omap (accepted rt timestamp) items)
    else Raise.
Proof.
  destruct (forallb is_dict items) eqn:Hall.
  - apply process_loop_ok. apply Forall_forall. intros c Hc He.
    apply process_coin_escaped in He.
    rewrite forallb_forall in Hall. apply list_elem_of_In in Hc.
    rewrite (Hall c Hc) in He. discriminate.
  - apply process_loop_escaped.
    assert (Hex : exists c, In c items /\ is_dict c = false).
    { clear -Hall. induction items as [|c items IH]; simpl in Hall; [discriminate|].
      destruct (is_dict c) eqn:Hc.
      - destruct (IH Hall) as (c' & ? & ?). exists c'. split; [by right|assumption].
      - exists c. split; [by left|assumption]. }
    destruct Hex as (c & Hin & Hc). apply Exists_exists. exists c.
    split; [by apply list_elem_of_In|by apply process_coin_escaped].
Qed.

(** X6. [process] raises on a batch exactly when one of its records is
    not a dictionary; otherwise it returns, in the order of the batch,
    the records of the items it accepts. *)
Theorem process_raises_exactly_on_a_non_dict_record (batch : list json) :
  process rt timestamp (Some (JList batch)) =
    if forallb is_dict batch
    then Ok (omap (accepted rt timestamp) batch)
    else Raise.
Proof.
  unfold process. destruct batch as [|c batch]; [reflexivity|].
  simpl negb. cbv iota. unfold bind, py_iter. by rewrite process_loop_result.
Qed.

(** X7. Whatever [process] is given, every record of a list it returns
    has a non-empty identifier, symbol and name, an upper-case symbol,
    the time stamp of the call and a score that is not NaN. *)
Theorem process_records_are_well_formed (raw_data : option json) (out : list coin) :
  process rt timestamp raw_data = Ok out ->
  Forall (fun r =>
            coin_id r <> EmptyString /\ symbol r <> EmptyString /\
            name r <> EmptyString /\ upper (symbol r) = symbol r /\
            extracted_at r = timestamp /\
            PrimFloat.is_nan (volatility_score r) = false) out.
Proof.
  intros Hout.
  assert (Hsrc : out = [] \/ exists items, out = omap (accepted rt timestamp) items).
  { unfold process in Hout. destruct raw_data as [v|]; [|left; congruence].
    destruct (truthy v); simpl in Hout; [|left; congruence].
    destruct (py_iter v) as [items|]; simpl in Hout; [|discriminate].
    rewrite process_loop_result in Hout.
    destruct (forallb is_dict items); [|discriminate].
    right. exists items. simpl in Hout. congruence. }
  destruct Hsrc as [->|[items ->]]; [constructor|].
  apply Forall_forall. intros r Hr.
  apply list_elem_of_omap in Hr as (c & _ & Hacc). unfold accepted in Hacc.
  destruct (process_coin rt timestamp c) as [r'| |] eqn:Hc; try discriminate.
  injection Hacc as ->.
  apply process_coin_appended in Hc as (m & _ & Hid & Hf).
  destruct Hf as (_ & Hsym & Hnm & _ & _ & _ & _ & _ & Hv & Ht).
  split; [exact Hid|]. rewrite Hsym, Hnm, Hv.
  split; [apply str_or_nonempty; discriminate|].
  split; [apply str_or_nonempty; discriminate|].
  split; [|split; [exact Ht|apply volatility_not_nan]].
  unfold str_or. destruct (String.eqb_spec (upper (py_str rt (dict_get m "symbol" (JStr "")))) "");
    [reflexivity|apply upper_idem].
Qed.

(** X8. A dictionary with a non-empty identifier whose five numeric
    fields are absent, [null], zero or otherwise false is kept, with
    price, market cap, volume and change 0, rank 999 and score 0. *)
Theorem missing_numbers_take_their_defaults (m : gmap string json) :
  py_str rt (dict_get m "id" (JStr "")) <> EmptyString ->
  truthy (dict_get m "current_price" JNull) = false ->
  truthy (dict_get m "market_cap" JNull) = false ->
  truthy (dict_get m "total_volume" JNull) = false ->
  truthy (dict_get m "price_change_percentage_24h" JNull) = false ->
  truthy (dict_get m "market_cap_rank" JNull) = false ->
  exists r,
    process_coin rt timestamp (JDict m) = Appended r /\
    current_price r = 0%float /\ market_cap r = 0 /\ total_volume r = 0 /\
    price_change_24h r = 0%float /\ market_cap_rank r = 999 /\
    volatility_score r = 0%float.
Proof.
  intros Hid Hp Hc Hv Hg Hr.
  unfold process_coin, try_body. simpl get. unfold bind at 1.
  destruct (String.eqb_spec (py_str rt (dict_get m "id" (JStr ""))) "") as [|_];
    [contradiction|].
  cbv beta iota delta [bind py_or]. rewrite Hp.
  change (py_float rt (JInt 0)) with (Ok 0%float). cbv beta iota. rewrite Hc.
  change (py_int rt (JInt 0)) with (Ok 0). cbv beta iota. rewrite Hv.
  change (py_int rt (JInt 0)) with (Ok 0). cbv beta iota. rewrite Hg.
  change (py_float rt (JInt 0)) with (Ok 0%float). cbv beta iota. rewrite Hr.
  change (py_int rt (JInt 999)) with (Ok 999). cbv beta iota.
  eexists. split; [reflexivity|]. simpl. by repeat split.
Qed.

End TransformerMore.

Lemma process_records_witness :
  exists out,
    DataProcessor.process Py.plain_runtime 7
      (Some (Py.JList [DataProcessor.bitcoin; DataProcessor.nameless])) = Py.Ok out /\
    Forall (fun r => Py.upper (DataProcessor.symbol r) = DataProcessor.symbol r) out.
Proof.
  eexists. split; [reflexivity|].
  eapply Forall_impl;
    [exact (process_records_are_well_formed Py.plain_runtime 7
              (Some (Py.JList [DataProcessor.bitcoin; DataProcessor.nameless])) _ eq_refl)|].
  intros r H. exact (proj1 (proj2 (proj2 (proj2 H)))).
Defined.

Lemma missing_numbers_witness :
  exists r,
    DataProcessor.process_coin Py.plain_runtime 7
      (Py.JDict (<["id" := Py.JStr "x"]> (<["market_cap" := Py.JNull]> ∅)))
    = DataProcessor.Appended r /\
    DataProcessor.market_cap_rank r = 999.
Proof.
  assert (Hid : Py.py_str Py.plain_runtime
                  (Py.dict_get (<["id" := Py.JStr "x"]> (<["market_cap" := Py.JNull]> ∅))
                     "id" (Py.JStr "")) <> EmptyString) by discriminate.
  destruct (missing_numbers_take_their_defaults Py.plain_runtime 7 _ Hid
              eq_refl eq_refl eq_refl eq_refl eq_refl)
    as (r & Hr & _ & _ & _ & _ & Hrank & _).
  exists r. by split.
Defined.

(** ** The order in which [get_coins] answers *)

Section ReadOrder.
Import DataProcessor Database.

Lemma unique_loop_sublist (rows : list coin) (seen : list (string * coin)) :
  exists kept,
    unique_loop rows seen = seen ++ kept /\ kept.*2 `sublist_of` rows.
Proof.
  revert seen. induction rows as [|c rows IH]; intros seen; simpl.
  - exists []. split; [by rewrite app_nil_r|constructor].
  - destruct (not_in (coin_id c) seen).
    + destruct (IH (seen ++ [(coin_id c, c)])) as (kept & -> & Hsub).
      exists ((coin_id c, c) :: kept). split; [by rewrite <- app_assoc|].
      simpl. by constructor.
    + destruct (IH seen) as (kept & -> & Hsub).
      exists kept. split; [reflexivity|]. by constructor.
Qed.

Lemma sublist_elem {A} (l k : list A) (x : A) :
  l `sublist_of` k -> x ∈ l -> x ∈ k.
Proof.
  induction 1 as [|y l k _ IH|y l k _ IH]; intros Hx; [exact Hx| |].
  - apply elem_of_cons in Hx as [->|Hx]; [apply list_elem_of_here|].
    by apply list_elem_of_further, IH.
  - by apply list_elem_of_further, IH.
Qed.

Lemma sublist_strongly_sorted {A} (R : A -> A -> Prop) (l k : list A) :
  l `sublist_of` k -> StronglySorted R k -> StronglySorted R l.
Proof.
  induction 1 as [|x l k Hsub IH|x l k Hsub IH]; intros Hs.
  - constructor.
  - inversion Hs as [|? ? Hk Hall]; subst. constructor; [by apply IH|].
    apply Forall_forall. intros y Hy.
    apply (proj1 (Forall_forall _ _) Hall). by apply (sublist_elem _ _ _ Hsub).
  - inversion Hs; subst. by apply IH.
Qed.

(** X9. [get_coins] answers newest first: the rows it returns are in
    descending order of [extracted_at], they are rows of the table taken
    in the order the datastore sent them, and there are no more of them
    than rows in the table. *)
Theorem get_coins_is_newest_first (ds : datastore) (t : table) :
  StronglySorted newer_or_same (get_coins ds t) /\
  get_coins ds t `sublist_of` order_desc t /\
  (length (get_coins ds t) <= length t)%nat.
Proof.
  unfold get_coins. destruct (select_ok ds).
  - destruct (unique_loop_sublist (order_desc t) []) as (kept & -> & Hsub).
    simpl. split; [|split; [exact Hsub|]].
    + eapply sublist_strongly_sorted; [exact Hsub|apply order_desc_sorted].
    + rewrite <- (Permutation_length (order_desc_perm t)). by apply sublist_length.
  - split; [constructor|]. split; [apply sublist_nil_l|simpl; lia].
Qed.

End ReadOrder.

(** ** More on a run of the pipeline *)

Section RunMore.
Import Py DataProcessor Database ETLPipeline.
#[local] Arguments save_coins : simpl never.
#[local] Arguments process : simpl never.

Lemma keep_raw_rows (audit : option json) (w : world) : rows (keep_raw audit w) = rows w.
Proof. by destruct audit. Qed.

Lemma keep_raw_trace (audit : option json) (w : world) : trace (keep_raw audit w) = trace w.
Proof. by destruct audit. Qed.

Lemma keep_raw_files (audit : option json) (w : world) :
  raw_files (keep_raw audit w) = raw_files w ++ option_list audit.
Proof. destruct audit; simpl; [reflexivity|by rewrite app_nil_r]. Qed.


Lemma process_object_raises (m : gmap string json) :
  m <> ∅ -> forall rt0 ts, process rt0 ts (Some (JDict m)) = Raise.
Proof.
  intros Hm rt0 ts. unfold process. simpl truthy.
  rewrite bool_decide_eq_false_2 by exact Hm. simpl.
  destruct (map_to_list m) as [|[k v] l] eqn:Hl.
  - apply map_to_list_empty_iff in Hl. contradiction.
  - reflexivity.
Qed.

Lemma process_text_raises (s : string) :
  s <> EmptyString -> forall rt0 ts, process rt0 ts (Some (JStr s)) = Raise.
Proof.
  intros Hs rt0 ts. unfold process. destruct s as [|c s]; [contradiction|]. reflexivity.
Qed.


End RunMore.



(** ** Keys and entries of the historical cache *)

Section CacheKeys.
Import Py ApiHandler.

Lemma char_of_append (a b : string) (c : ascii) :
  In c (list_ascii_of_string (a ++ String c b)).
Proof. induction a as [|x a IH]; simpl; [by left|by right]. Qed.

Lemma uint_text_has_no_underscore (u : Decimal.uint) :
  ~ In "_"%char (list_ascii_of_string (NilEmpty.string_of_uint u)).
Proof.
  induction u; simpl; [tauto|..]; intros [H|H]; (discriminate || by apply IHu).
Qed.

Lemma int_text_has_no_underscore (z : Z) (a b : string) :
  NilZero.string_of_int (Z.to_int z) <> (a ++ String "_" b)%string.
Proof.
  intros Heq. pose proof (char_of_append a b "_"%char) as Hin. rewrite <- Heq in Hin.
  clear Heq. unfold NilZero.string_of_int, NilZero.string_of_uint in Hin.
  destruct (Z.to_int z) as [u|u]; destruct u; simpl in Hin;
    repeat (destruct Hin as [Hin|Hin]; [discriminate|]);
    try tauto; by apply uint_text_has_no_underscore in Hin.
Qed.

Lemma int_text_inj (z1 z2 : Z) :
  NilZero.string_of_int (Z.to_int z1) = NilZero.string_of_int (Z.to_int z2) -> z1 = z2.
Proof.
  intros Heq.
  assert (Hparse : forall z, NilZero.int_of_string (NilZero.string_of_int (Z.to_int z))
                             = Some (Z.to_int z)).
  { intros z. apply NilZero.isi; destruct z; simpl; try discriminate;
      intros [= H]; by apply DecimalPos.Unsigned.to_uint_nonnil in H. }
  pose proof (Hparse z1) as H1. rewrite Heq, Hparse in H1. injection H1 as H1.
  rewrite <- (DecimalZ.of_to z1), <- (DecimalZ.of_to z2). by rewrite H1.
Qed.

Lemma split_at_last_underscore (s1 s2 t1 t2 : string) :
  (forall a b, t1 <> (a ++ String "_" b)%string) ->
  (forall a b, t2 <> (a ++ String "_" b)%string) ->
  (s1 ++ String "_" t1 = s2 ++ String "_" t2)%string -> s1 = s2 /\ t1 = t2.
Proof.
  intros H1 H2. revert s2. induction s1 as [|c s1 IH]; intros [|c' s2]; simpl; intros Heq.
  - injection Heq as ->. by split.
  - injection Heq as _ Heq. by apply H1 in Heq.
  - injection Heq as _ Heq. symmetry in Heq. by apply H2 in Heq.
  - injection Heq as -> Heq. destruct (IH _ Heq) as [-> ->]. by split.
Qed.

(** X12. Two requests share a cache key only if they name the same coin
    and the same number of days: an entry is never served for another
    coin or another window. *)
Theorem cache_key_is_injective (coin1 coin2 : string) (days1 days2 : Z) :
  cache_key coin1 days1 = cache_key coin2 days2 -> coin1 = coin2 /\ days1 = days2.
Proof.
  unfold cache_key. simpl. intros Heq.
  apply split_at_last_underscore in Heq as [-> Hd];
    [|apply int_text_has_no_underscore..].
  split; [reflexivity|by apply int_text_inj].
Qed.

(** X13. A fetch leaves the entry of every other key as it was, never
    drops a request from the log, and sends a request exactly when the
    cache holds no entry of its key younger than five minutes. *)
Theorem fetch_touches_only_its_own_entry
    (response : exc payload) (now_check now_store : Z)
    (self : api) (coin_id : string) (days : Z) :
  let self' := (get_historical_data response now_check now_store self coin_id days).2 in
  (forall k, k <> cache_key coin_id days -> cache self' !! k = cache self !! k) /\
  (requests self' = requests self \/
   requests self' = requests self ++ [(coin_id, days)]) /\
  (requests self' = requests self <->
   exists e, cache self !! cache_key coin_id days = Some e /\ now_check - time e < ttl).
Proof.
  cbv zeta.
  assert (Hgrow : forall l : list (string * Z), l ++ [(coin_id, days)] <> l).
  { intros l Hl. apply (f_equal length) in Hl. rewrite length_app in Hl. simpl in Hl. lia. }
  unfold get_historical_data.
  destruct (cache self !! cache_key coin_id days) as [e|] eqn:He.
  - destruct (Z.ltb_spec (now_check - time e) ttl) as [Hfresh|Hstale].
    + simpl. split; [done|]. split; [by left|]. split; [|done]. intros _. by exists e.
    + destruct (bind response (fun d => _process_historical_data d days)) as [ohlc|];
        simpl; (split; [intros k Hk; by rewrite ?lookup_insert_ne|]);
        (split; [by right|]); (split; [intros H; by apply Hgrow in H|]);
        intros (e' & [= <-] & Hf); lia.
  - destruct (bind response (fun d => _process_historical_data d days)) as [ohlc|];
      simpl; (split; [intros k Hk; by rewrite ?lookup_insert_ne|]);
      (split; [by right|]); (split; [intros H; by apply Hgrow in H|]);
      intros (e' & [=] & _).
Qed.

End CacheKeys.

Lemma cache_key_witness : "bitcoin" = "bitcoin" /\ 5 = 5.
Proof. exact (cache_key_is_injective "bitcoin" "bitcoin" 5 5 eq_refl). Defined.

Lemma fetch_frame_witness :
  ApiHandler.cache
    (ApiHandler.get_historical_data (Py.Ok ApiHandler.chart) 0 0
       ApiHandler.empty_api "bitcoin" 5).2 !! "ethereum_5" = None.
Proof.
  refine (proj1 (fetch_touches_only_its_own_entry (Py.Ok ApiHandler.chart) 0 0
                   ApiHandler.empty_api "bitcoin" 5) "ethereum_5" _).
  discriminate.
Defined.

(** ** More on the bars of the resampler *)

Section BarsMore.
Import Py ApiHandler.
#[local] Open Scope Z_scope.

Lemma last_of_nonempty {A} (l : list A) (d : A) : l <> [] -> List.last l d ∈ l.
Proof.
  induction l as [|x l IH]; intros Hne; [contradiction|].
  destruct l as [|y l]; [apply list_elem_of_here|].
  apply list_elem_of_further. change (List.last (x :: y :: l) d) with (List.last (y :: l) d).
  by apply IH.
Qed.

Lemma last_elem {A} (rest : list A) (p : A) : List.last rest p ∈ p :: rest.
Proof.
  destruct rest as [|x rest]; [apply list_elem_of_here|].
  by apply list_elem_of_further, last_of_nonempty.
Qed.

Lemma bucket_of_multiple (w k : Z) : 0 < w -> bucket_of w (k * w) = k * w.
Proof. intros Hw. unfold bucket_of. by rewrite Z.div_mul by lia. Qed.

Lemma bucket_of_idem (w t : Z) : 0 < w -> bucket_of w (bucket_of w t) = bucket_of w t.
Proof. intros Hw. unfold bucket_of at 2. by apply bucket_of_multiple. Qed.

(** The labels are the aligned instants between the first and the last
    bin. *)
Lemma bin_labels_span (w : Z) (x : sample) (l : list sample) (t : Z) :
  0 < w -> StronglySorted earlier_or_same (x :: l) ->
  t ∈ bin_labels w (x :: l) <->
  bucket_of w t = t /\
  bucket_of w x.1 <= t <= bucket_of w (List.last (x :: l) x).1.
Proof.
  intros Hw Hsorted. unfold bin_labels, bins.
  pose proof (sorted_last_latest (x :: l) x x Hsorted (list_elem_of_here _ _)) as Hord.
  apply (Z.div_le_mono _ _ w Hw) in Hord.
  set (first := x.1) in *. set (final := (List.last (x :: l) x).1) in *.
  assert (Hspan : (bucket_of w final - bucket_of w first) / w = final / w - first / w).
  { unfold bucket_of.
    replace (final / w * w - first / w * w) with ((final / w - first / w) * w) by ring.
    by rewrite Z.div_mul by lia. }
  rewrite list_elem_of_fmap. split.
  - intros (k & -> & Hk). apply elem_of_seq in Hk. rewrite Hspan in Hk.
    assert (Hal : bucket_of w first + Z.of_nat k * w = (first / w + Z.of_nat k) * w)
      by (unfold bucket_of; ring).
    split; [rewrite Hal; by apply bucket_of_multiple|].
    assert (Hk' : Z.of_nat k <= final / w - first / w) by lia.
    unfold bucket_of in *. nia.
  - intros (Hal & Hlo & Hhi). unfold bucket_of in Hal, Hlo, Hhi.
    assert (Hq1 : first / w <= t / w) by nia.
    assert (Hq2 : t / w <= final / w) by nia.
    exists (Z.to_nat (t / w - first / w)). split.
    + rewrite Z2Nat.id by lia. unfold bucket_of. rewrite <- Hal at 1. ring.
    + apply elem_of_seq. rewrite Hspan. lia.
Qed.

Lemma strictly_sorted_NoDup (l : list Z) : StronglySorted Z.lt l -> NoDup l.
Proof.
  induction 1 as [|x l _ IH Hall]; constructor; [|exact IH].
  intros Hx. apply (proj1 (Forall_forall _ _) Hall) in Hx. lia.
Qed.

Lemma set_volume_fields (series : list (Z * Q)) (b : bar) :
  timestamp (set_volume series b) = timestamp b /\
  open (set_volume series b) = open b /\ high (set_volume series b) = high b /\
  low (set_volume series b) = low b /\ close (set_volume series b) = close b.
Proof. by repeat split. Qed.

(** The rows of the frame, whatever the payload says about volumes. *)
Lemma processed_rows (d : payload) (days : Z) (bars : list bar) (b : bar) :
  _process_historical_data d days = Ok bars -> b ∈ bars ->
  exists ps b0,
    prices d = Some ps /\ b0 ∈ resample_ohlc (bucket_width days) ps /\
    timestamp b = timestamp b0 /\ open b = open b0 /\ high b = high b0 /\
    low b = low b0 /\ close b = close b0 /\
    match total_volumes d with
    | None => volume b = None
    | Some vs => volume b = Some (aligned (resample_sum (bucket_width days) vs) (timestamp b0))
    end.
Proof.
  unfold _process_historical_data. destruct (prices d) as [ps|]; [|discriminate].
  destruct (total_volumes d) as [vs|]; intros [= <-] Hb.
  - apply list_elem_of_fmap in Hb as (b0 & -> & Hb0). exists ps, b0. by repeat split.
  - exists ps, b. repeat split; try done.
    apply resample_ohlc_rows in Hb as [_ Hb].
    destruct (bucket_values (bucket_width days) (timestamp b) (sort_by_time ps));
      simpl in Hb; [discriminate|]. by injection Hb as <-.
Qed.

(** X14. Every bar is a proper candle on the grid: its low is at most
    its open and its close, its high at least both, and its timestamp is
    the start of a bin of the chosen width. *)
Theorem bars_are_candles_on_the_grid (d : payload) (days : Z) (bars : list bar) :
  _process_historical_data d days = Ok bars ->
  Forall (fun b =>
            (low b <= open b)%Q /\ (open b <= high b)%Q /\
            (low b <= close b)%Q /\ (close b <= high b)%Q /\
            bucket_of (bucket_width days) (timestamp b) = timestamp b) bars.
Proof.
  intros Hok. apply Forall_forall. intros b Hb.
  pose proof (bucket_width_pos days) as Hw.
  destruct (processed_rows d days bars b Hok Hb)
    as (ps & b0 & _ & Hb0 & -> & -> & -> & -> & -> & _).
  apply resample_ohlc_rows in Hb0 as [Hlabel Hrow].
  destruct (ohlc_of_some _ _ _ Hrow)
    as [_ (p & rest & Hvals & Hopen & Hclose & _ & Hhi & _ & Hlo)].
  assert (Hp : p ∈ bucket_values (bucket_width days) (timestamp b0) (sort_by_time ps)).
  { rewrite Hvals. apply list_elem_of_here. }
  assert (Hc : List.last rest p
               ∈ bucket_values (bucket_width days) (timestamp b0) (sort_by_time ps)).
  { rewrite Hvals. apply last_elem. }
  rewrite Hopen, Hclose.
  split; [by apply Hlo|]. split; [by apply Hhi|].
  split; [by apply Hlo|]. split; [by apply Hhi|].
  pose proof (sort_by_time_sorted ps) as Hsorted.
  destruct (sort_by_time ps) as [|x l]; [by apply elem_of_nil in Hlabel|].
  by apply (bin_labels_span _ x l _ Hw Hsorted) in Hlabel as [? _].
Qed.

(** X15. Every price sample is inside a bar: the bar of its bin starts
    at or before the sample, ends after it, and its low and high enclose
    the sample's price. There are never more bars than price samples. *)
Theorem every_price_is_inside_a_bar (ps : list sample) (vols : option (list sample))
    (days : Z) (bars : list bar) :
  _process_historical_data {| prices := Some ps; total_volumes := vols |} days = Ok bars ->
  (forall s, s ∈ ps ->
     exists b, b ∈ bars /\
       timestamp b <= s.1 < timestamp b + bucket_width days /\
       (low b <= s.2)%Q /\ (s.2 <= high b)%Q) /\
  (length bars <= length ps)%nat.
Proof.
  intros Hok. pose proof (bucket_width_pos days) as Hw.
  set (w := bucket_width days) in *.
  assert (Hbars : exists f, bars = f <$> resample_ohlc w ps /\
                   forall b, timestamp (f b) = timestamp b /\
                             low (f b) = low b /\ high (f b) = high b).
  { unfold _process_historical_data in Hok. simpl in Hok. destruct vols as [vs|].
    - injection Hok as <-. eexists. split; [reflexivity|]. by intros b.
    - injection Hok as <-. exists id. split; [by rewrite list_fmap_id|]. by intros b. }
  destruct Hbars as (f & -> & Hf). split.
  - intros s Hs.
    assert (Hs' : s ∈ sort_by_time ps) by (by rewrite sort_by_time_perm).
    set (t := bucket_of w s.1).
    assert (Hval : s.2 ∈ bucket_values w t (sort_by_time ps)).
    { unfold bucket_values. apply list_elem_of_fmap_2.
      apply list_elem_of_In, filter_In. split; [by apply list_elem_of_In|].
      unfold in_bucket. by apply Z.eqb_eq. }
    destruct (ohlc_of t (bucket_values w t (sort_by_time ps))) as [b|] eqn:Hb.
    + destruct (ohlc_of_some _ _ _ Hb) as [Ht (p & rest & _ & _ & _ & _ & Hhi & _ & Hlo)].
      exists (f b). destruct (Hf b) as (-> & -> & ->). rewrite Ht.
      split; [|split; [apply bucket_of_range; exact Hw|split; [by apply Hlo|by apply Hhi]]].
      apply list_elem_of_fmap_2, resample_ohlc_rows. rewrite Ht. split; [|exact Hb].
      apply bin_labels_cover; [exact Hw|apply sort_by_time_sorted|exact Hs'].
    + destruct (bucket_values w t (sort_by_time ps)); [by apply elem_of_nil in Hval|].
      discriminate.
  - rewrite length_fmap.
    rewrite <- (length_fmap timestamp), <- (length_fmap (fun s : sample => bucket_of w s.1) ps).
    apply submseteq_length, NoDup_submseteq.
    + apply strictly_sorted_NoDup. by apply resample_ohlc_sorted.
    + intros t Ht. apply list_elem_of_fmap in Ht as (b & -> & Hb).
      apply resample_ohlc_rows in Hb as [_ Hb].
      destruct (ohlc_of_some _ _ _ Hb) as [_ (p & rest & Hvals & _)].
      destruct (proj1 (bucket_values_nonempty w (timestamp b) (sort_by_time ps)))
        as (s & Hs & Hbs); [rewrite Hvals; discriminate|].
      rewrite <- Hbs. apply (list_elem_of_fmap_2 (fun s : sample => bucket_of w s.1)).
      by rewrite <- (sort_by_time_perm ps).
Qed.

Lemma bars_grid_aligned (d : payload) (days : Z) (bars : list bar) :
  _process_historical_data d days = Ok bars ->
  Forall (fun b => bucket_of (bucket_width days) (timestamp b) = timestamp b) bars.
Proof.
  intros Hok. apply Forall_forall. intros b Hb.
  pose proof (bucket_width_pos days) as Hw.
  destruct (processed_rows d days bars b Hok Hb) as (ps & b0 & _ & Hb0 & -> & _).
  apply resample_ohlc_rows in Hb0 as [Hlabel _].
  pose proof (sort_by_time_sorted ps) as Hsorted.
  destruct (sort_by_time ps) as [|x l]; [by apply elem_of_nil in Hlabel|].
  by apply (bin_labels_span _ x l _ Hw Hsorted) in Hlabel as [? _].
Qed.

(** X16. Without a ['total_volumes'] list the bars have no volume. With
    one, the volume of a bar is the sum of the volume samples of its bin
    (0 when the bin holds none) if the bin lies between the bins of two
    volume samples, and NaN otherwise; with an empty list it is NaN in
    every bar. *)
Theorem volume_column_of_the_bars (d : payload) (days : Z) (bars : list bar) (b : bar) :
  _process_historical_data d days = Ok bars -> b ∈ bars ->
  let w := bucket_width days in
  match total_volumes d with
  | None => volume b = None
  | Some vs =>
      ((exists v1 v2, v1 ∈ vs /\ v2 ∈ vs /\
                      bucket_of w v1.1 <= timestamp b <= bucket_of w v2.1) ->
       volume b = Some (Some (Indicators.qsum
                    (bucket_values w (timestamp b) (sort_by_time vs))))) /\
      (~ (exists v1 v2, v1 ∈ vs /\ v2 ∈ vs /\
                        bucket_of w v1.1 <= timestamp b <= bucket_of w v2.1) ->
       volume b = Some None)
  end.
Proof.
  intros Hok Hb. cbv zeta. pose proof (bucket_width_pos days) as Hw.
  pose proof (proj1 (Forall_forall _ _) (bars_grid_aligned d days bars Hok) b Hb) as Hal.
  destruct (processed_rows d days bars b Hok Hb)
    as (ps & b0 & _ & _ & Ht & _ & _ & _ & _ & Hvol).
  destruct (total_volumes d) as [vs|]; [|exact Hvol].
  rewrite Hvol, <- Ht. clear Hvol.
  pose proof (sort_by_time_sorted vs) as Hsorted.
  assert (Hmem : forall v, v ∈ sort_by_time vs <-> v ∈ vs).
  { intros v. by rewrite sort_by_time_perm. }
  destruct (sort_by_time vs) as [|x l] eqn:Hsort.
  - split.
    + intros (v1 & _ & Hv1 & _). apply Hmem in Hv1. by apply elem_of_nil in Hv1.
    + intros _. rewrite aligned_outside; [reflexivity|].
      rewrite Hsort. apply not_elem_of_nil.
  - assert (Hspan : timestamp b ∈ bin_labels (bucket_width days) (x :: l) <->
                    exists v1 v2, v1 ∈ vs /\ v2 ∈ vs /\
                      bucket_of (bucket_width days) v1.1 <= timestamp b
                      <= bucket_of (bucket_width days) v2.1).
    { rewrite (bin_labels_span _ x l _ Hw Hsorted). split.
      - intros (_ & Hlo & Hhi). exists x, (List.last (x :: l) x).
        split; [apply Hmem, list_elem_of_here|].
        split; [by apply Hmem, last_of_nonempty|]. by split.
      - intros (v1 & v2 & Hv1 & Hv2 & Hlo & Hhi). split; [exact Hal|].
        apply Hmem in Hv1, Hv2. split.
        + etransitivity; [|exact Hlo]. apply bucket_of_mono; [exact Hw|].
          apply elem_of_cons in Hv1 as [->|Hv1]; [lia|].
          inversion Hsorted as [|? ? _ Hall]; subst.
          exact (proj1 (Forall_forall _ _) Hall _ Hv1).
        + etransitivity; [exact Hhi|]. apply bucket_of_mono; [exact Hw|].
          by apply sorted_last_latest. }
    rewrite <- Hsort in Hspan. rewrite <- Hsort. split.
    + intros Hin. by rewrite aligned_resample_sum by (by apply Hspan).
    + intros Hout. rewrite aligned_outside; [reflexivity|]. intros Hin. by apply Hout, Hspan.
Qed.

End BarsMore.

(** ** Indicators on a frame and the trend read from them *)

Section Trend.
Import Py Indicators ApiHandler Charting.
#[local] Open Scope Q_scope.

Lemma calculate_sma_length (xs : list Q) (window : Z) :
  length (calculate_sma (Some xs) window) = length xs.
Proof.
  unfold calculate_sma, nan_series.
  repeat case_match; by rewrite ?length_fmap, ?rolling_mean_length.
Qed.

Lemma calculate_ema_length (xs : list Q) (window : Z) :
  length (calculate_ema (Some xs) window) = length xs.
Proof.
  unfold calculate_ema, nan_series.
  repeat case_match; by rewrite ?length_fmap, ?ewm_mean_length.
Qed.

Lemma calculate_macd_length (xs : list Q) (fast slow signal : Z) :
  length (calculate_macd (Some xs) fast slow signal).1.1 = length xs /\
  length (calculate_macd (Some xs) fast slow signal).1.2 = length xs /\
  length (calculate_macd (Some xs) fast slow signal).2 = length xs.
Proof.
  assert (Lm : length (macd_line fast slow xs) = length xs).
  { unfold macd_line. rewrite length_zip_with, !ewm_mean_length. lia. }
  assert (Ls : length (signal_line fast slow signal xs) = length xs).
  { unfold signal_line. by rewrite ewm_mean_length. }
  assert (Lh : length (histogram fast slow signal xs) = length xs).
  { unfold histogram. rewrite length_zip_with. lia. }
  unfold calculate_macd, nan_series, const_series.
  destruct (Z.of_nat (length xs) <? slow)%Z; simpl; [by rewrite !length_fmap|].
  destruct (ewm_ok fast && ewm_ok slow && ewm_ok signal); simpl;
    by rewrite !length_fmap.
Qed.

Lemma filled (l : list num) :
  length (fillna 0 <$> l) = length l /\
  Forall (fun v => is_nan v = false) (fillna 0 <$> l).
Proof.
  split; [by rewrite length_fmap|].
  apply Forall_fmap, Forall_forall. intros v _. by destruct v.
Qed.

Lemma volume_column_length (bars : list bar) (col : list num) :
  volume_column bars = Some col -> length col = length bars.
Proof.
  unfold volume_column. destruct (mapM volume bars) as [vs|] eqn:Hm; [|discriminate].
  intros [= <-]. rewrite length_fmap. apply mapM_Some in Hm.
  symmetry. by apply (Forall2_length _ _ _ Hm).
Qed.

(** X17. On a frame of bars that is not empty [add_all_indicators]
    returns the frame with its twelve (with a volume column, thirteen)
    columns, each as long as the frame and without a single NaN. *)
Theorem add_all_indicators_fills_every_column (bars : list bar) :
  bars <> [] ->
  exists c,
    add_all_indicators (Some bars) = WithIndicators c /\
    index c = timestamp <$> bars /\
    Forall (fun col => length col = length bars /\
                       Forall (fun v => is_nan v = false) col) (columns c).
Proof.
  intros Hne. destruct bars as [|b bars]; [contradiction|].
  unfold add_all_indicators.
  set (all := b :: bars). set (closes := close <$> all).
  destruct (calculate_macd_length closes 12 26 9) as (L1 & L2 & L3).
  destruct (calculate_macd (Some closes) 12 26 9) as [[macd signal] hist].
  cbn [fst snd] in L1, L2, L3.
  assert (Lc : length closes = length all) by (unfold closes; by rewrite length_fmap).
  assert (Hcol : forall l, length l = length all ->
            length (fillna 0 <$> l) = length all /\
            Forall (fun v => is_nan v = false) (fillna 0 <$> l)).
  { intros l Hl. destruct (filled l) as [-> ?]. by split. }
  eexists. split; [reflexivity|]. split; [reflexivity|].
  unfold columns.
  cbn [c_open c_high c_low c_close SMA_20 SMA_50 EMA_12 EMA_26 MACD MACD_signal
       MACD_histogram RSI c_volume app].
  repeat (constructor;
    [apply Hcol;
     rewrite ?length_fmap, ?calculate_sma_length, ?calculate_ema_length,
       ?calculate_rsi_length, ?L1, ?L2, ?L3, ?Lc; done|]).
  destruct (volume_column all) as [col|] eqn:Hvol; cbn [fmap option_fmap option_map option_list];
    [|constructor].
  constructor; [|constructor]. apply Hcol. by apply volume_column_length.
Qed.

Lemma num_gt_irrefl (a : num) : num_gt a a = false.
Proof.
  destruct a as [x| | |]; simpl; try reflexivity.
  unfold is_pos. assert (H : x - x <= 0) by lra.
  apply Qle_bool_iff in H. by rewrite H.
Qed.

(** X18. On a frame with rows and a ['close'] column whose ['SMA_20']
    column is missing, or ends in NaN, [detect_trend] answers NEUTRAL
    whatever the other columns hold. *)
Theorem trend_without_sma20_is_neutral (f : frame) :
  f_index f <> [] -> is_Some (f_close f) ->
  f_SMA_20 f = None \/ (exists l, f_SMA_20 f = Some l /\ last l = Some NaN) ->
  detect_trend (Some f) = NEUTRAL.
Proof.
  intros Hidx [closes Hclose] Hsma. unfold detect_trend. rewrite Hclose.
  destruct (f_index f) as [|t idx]; [contradiction|].
  unfold iloc_last at 1. destruct (last closes) as [lc|]; simpl; [|reflexivity].
  set (last_price := if is_nan lc then Fin 0 else lc).
  assert (Hs20 : last_or (f_SMA_20 f) last_price = Ok last_price).
  { destruct Hsma as [->|(l & -> & Hl)]; [reflexivity|].
    unfold last_or, iloc_last. by rewrite Hl. }
  rewrite Hs20. simpl.
  destruct (last_or (f_SMA_50 f) last_price) as [sma_50|]; simpl; [|reflexivity].
  destruct (last_or (f_RSI f) (Fin 50)) as [rsi|]; simpl; [|reflexivity].
  unfold num_lt. by rewrite !num_gt_irrefl.
Qed.

Lemma last_of_filled_nan (xs : list Q) :
  xs <> [] -> last (fillna 0 <$> nan_series xs) = Some (Fin 0).
Proof.
  intros Hne. unfold nan_series. rewrite !fmap_last.
  destruct (last xs) eqn:Hl; [reflexivity|]. by apply last_None in Hl.
Qed.

Lemma trend_over_zero_averages (f : frame) (closes s20 s50 rsi_col : list num) (c : Q) :
  f_index f <> [] ->
  f_close f = Some closes -> last closes = Some (Fin c) -> 0 < c ->
  f_SMA_20 f = Some s20 -> last s20 = Some (Fin 0) ->
  f_SMA_50 f = Some s50 -> last s50 = Some (Fin 0) ->
  f_RSI f = Some rsi_col -> rsi_col <> [] ->
  detect_trend (Some f) = UPTREND.
Proof.
  intros Hidx Hclose Hlc Hpos H20 Hl20 H50 Hl50 Hrsi Hne.
  unfold detect_trend. rewrite Hclose, H20, H50, Hrsi.
  destruct (f_index f) as [|t idx]; [contradiction|].
  unfold last_or, iloc_last. rewrite Hlc, Hl20, Hl50.
  destruct (last rsi_col) as [v|] eqn:Hv; [|by apply last_None in Hv].
  assert (Hgt : num_gt (Fin c) (Fin 0) = true).
  { simpl. unfold is_pos. destruct (Qle_bool (c - 0) 0) eqn:Hle; [|reflexivity].
    apply Qle_bool_iff in Hle. lra. }
  cbn [of_option bind is_nan]. by rewrite Hgt, num_gt_irrefl, andb_false_r.
Qed.

(** X19. With fewer than twenty bars and a positive last close, the
    trend read from the enriched frame is UPTREND, whatever the prices
    did: the moving averages are not defined yet and [fillna(0)] has
    turned them into zeros. *)
Theorem short_history_reads_as_uptrend (bars : list bar) (b : bar) :
  (length bars < 20)%nat -> last bars = Some b -> 0 < close b ->
  detect_trend (frame_of (add_all_indicators (Some bars))) = UPTREND.
Proof.
  intros Hlen Hlast Hpos.
  destruct bars as [|b0 bars]; [discriminate|].
  unfold add_all_indicators.
  set (all := b0 :: bars) in *. set (closes := close <$> all).
  assert (Hne : closes <> []) by discriminate.
  assert (Lc : length closes = length all) by (unfold closes; by rewrite length_fmap).
  destruct (calculate_macd (Some closes) 12 26 9) as [[macd signal] hist].
  cbn [frame_of].
  eapply (trend_over_zero_averages _ _ _ _ _ (close b));
    [discriminate|reflexivity| |exact Hpos|reflexivity| |reflexivity| |reflexivity|].
  - cbn [c_close]. unfold closes. by rewrite !fmap_last, Hlast.
  - cbn [SMA_20]. rewrite calculate_sma_undefined by (left; lia).
    by apply last_of_filled_nan.
  - cbn [SMA_50]. rewrite calculate_sma_undefined by (left; lia).
    by apply last_of_filled_nan.
  - cbn [RSI]. intros Hnil. apply (f_equal length) in Hnil.
    rewrite length_fmap, calculate_rsi_length, Lc in Hnil. discriminate.
Qed.

End Trend.

Lemma candles_witness :
  exists bars,
    ApiHandler._process_historical_data ApiHandler.chart 5 = Py.Ok bars /\
    Forall (fun b => (ApiHandler.low b <= ApiHandler.open b)%Q /\
                     (ApiHandler.close b <= ApiHandler.high b)%Q) bars.
Proof.
  eexists. split; [reflexivity|].
  eapply Forall_impl;
    [exact (bars_are_candles_on_the_grid ApiHandler.chart 5 _ eq_refl)|].
  intros b (H1 & _ & _ & H4 & _). by split.
Defined.

Lemma inside_a_bar_witness :
  exists b,
    b ∈ Charting.sample_bars /\
    ApiHandler.timestamp b <= 1000 < ApiHandler.timestamp b + ApiHandler.bucket_width 5 /\
    (ApiHandler.low b <= 3)%Q /\ (3 <= ApiHandler.high b)%Q.
Proof.
  destruct (every_price_is_inside_a_bar ApiHandler.two_hours None 5
              Charting.sample_bars eq_refl) as [Hin _].
  apply (Hin (1000, 3%Q)).
  unfold ApiHandler.two_hours. apply list_elem_of_further, list_elem_of_here.
Defined.

Lemma volume_column_witness :
  exists bars b,
    ApiHandler._process_historical_data Charting.chart_with_volumes 5 = Py.Ok bars /\
    b ∈ bars /\ ApiHandler.timestamp b = 0 /\
    ApiHandler.volume b
    = Some (Some (Indicators.qsum
                    (ApiHandler.bucket_values (ApiHandler.bucket_width 5) 0
                       (ApiHandler.sort_by_time ApiHandler.first_hour_volumes)))).
Proof.
  eexists _, _. split; [reflexivity|]. split; [apply list_elem_of_here|].
  split; [reflexivity|].
  refine (proj1 (volume_column_of_the_bars Charting.chart_with_volumes 5 _ _ eq_refl
                   (list_elem_of_here _ _)) _).
  exists (0, 5%Q), (500, 6%Q).
  split; [apply list_elem_of_here|].
  split; [apply list_elem_of_further, list_elem_of_here|].
  vm_compute. split; discriminate.
Defined.

Lemma enriched_frame_witness :
  exists c,
    Charting.add_all_indicators (Some Charting.sample_bars) = Charting.WithIndicators c /\
    Forall (fun col => length col = 2%nat) (Charting.columns c).
Proof.
  assert (Hne : Charting.sample_bars <> []) by (intros H; vm_compute in H; discriminate).
  destruct (add_all_indicators_fills_every_column Charting.sample_bars Hne)
    as (c & Hc & _ & Hcols).
  exists c. split; [exact Hc|].
  eapply Forall_impl; [exact Hcols|]. intros col [Hlen _]. exact Hlen.
Defined.

Lemma neutral_trend_witness :
  Charting.detect_trend (Some (Charting.frame_of_bars Charting.sample_bars))
  = Charting.NEUTRAL.
Proof.
  apply trend_without_sma20_is_neutral.
  - intros H. vm_compute in H. discriminate.
  - by eexists.
  - by left.
Defined.

Lemma short_history_witness :
  Charting.detect_trend
    (Charting.frame_of (Charting.add_all_indicators (Some Charting.sample_bars)))
  = Charting.UPTREND.
Proof.
  eapply short_history_reads_as_uptrend.
  - vm_compute. lia.
  - reflexivity.
  - reflexivity.
Defined.

(** ** A trend the pipeline cannot report on a young series *)

Section YoungSeries.
Import Py Indicators ApiHandler Charting.
#[local] Open Scope Q_scope.

Lemma sma_filled_nonneg (xs : list Q) (window : Z) :
  Forall (Qle 0) xs ->
  Forall (fun v => exists m, v = Fin m /\ 0 <= m)
         (fillna 0 <$> calculate_sma (Some xs) window).
Proof.
  intros Hxs. apply Forall_fmap. unfold calculate_sma, nan_series.
  assert (Hnan : Forall (fun v => exists m, fillna 0 v = Fin m /\ 0 <= m)
                        ((fun _ : Q => NaN) <$> xs)).
  { apply Forall_fmap, Forall_forall. intros x _. exists 0. split; [reflexivity|lra]. }
  destruct (Z.of_nat (length xs) <? window)%Z; [exact Hnan|].
  destruct (rolling_ok window); [|exact Hnan].
  apply Forall_fmap. eapply Forall_impl; [exact (rolling_mean_nonneg _ xs Hxs)|].
  intros m Hm. exists m. by split.
Qed.

Lemma last_elem_of {A} (l : list A) (x : A) : last l = Some x -> x ∈ l.
Proof.
  intros Hl. apply last_Some in Hl as [l' ->].
  apply elem_of_app. right. apply list_elem_of_here.
Qed.

Lemma trend_over_zero_sma50 (f : frame) (s20 s50 : list num) (m : Q) :
  f_SMA_20 f = Some s20 -> last s20 = Some (Fin m) -> 0 <= m ->
  f_SMA_50 f = Some s50 -> last s50 = Some (Fin 0) ->
  detect_trend (Some f) <> STRONG_DOWNTREND.
Proof.
  intros H20 Hl20 Hm H50 Hl50. unfold detect_trend.
  destruct (f_index f) as [|t idx]; [discriminate|].
  destruct (f_close f) as [closes|]; [|discriminate].
  rewrite H20, H50. unfold last_or at 1 2, iloc_last. rewrite Hl20, Hl50.
  destruct (last closes) as [lc|]; cbn [of_option bind is_nan]; [|discriminate].
  destruct (last_or (f_RSI f) (Fin 50)) as [rsi|]; cbn [bind]; [|discriminate].
  assert (Hlt : num_lt (Fin m) (Fin 0) = false).
  { unfold num_lt. simpl. unfold is_pos.
    assert (H : 0 - m <= 0) by lra. apply Qle_bool_iff in H. by rewrite H. }
  rewrite Hlt, andb_false_r. cbn [andb].
  repeat case_match; discriminate.
Qed.

(** X20. With fewer than fifty bars and no negative close the trend read
    from the enriched frame is never STRONG_DOWNTREND: the fifty-bar
    average is still the zero that [fillna(0)] put there, and the
    twenty-bar average cannot be below it. *)
Theorem young_series_is_never_in_strong_downtrend (bars : list bar) :
  (length bars < 50)%nat -> Forall (fun b => 0 <= close b) bars ->
  detect_trend (frame_of (add_all_indicators (Some bars))) <> STRONG_DOWNTREND.
Proof.
  intros Hlen Hpos.
  destruct bars as [|b0 bars]; [discriminate|].
  unfold add_all_indicators.
  set (all := b0 :: bars) in *. set (closes := close <$> all).
  assert (Hne : closes <> []) by discriminate.
  assert (Hcl : Forall (Qle 0) closes) by (by apply Forall_fmap).
  destruct (calculate_macd (Some closes) 12 26 9) as [[macd signal] hist].
  cbn [frame_of].
  destruct (last (fillna 0 <$> calculate_sma (Some closes) 20)) as [v|] eqn:Hv.
  - pose proof (proj1 (Forall_forall _ _) (sma_filled_nonneg closes 20 Hcl) v
                  (last_elem_of _ _ Hv)) as (m & -> & Hm).
    eapply (trend_over_zero_sma50 _ _ _ m); [reflexivity|exact Hv|exact Hm|reflexivity|].
    cbn [SMA_50]. rewrite calculate_sma_undefined.
    + by apply last_of_filled_nan.
    + left. unfold closes. rewrite length_fmap. lia.
  - apply last_None, (f_equal length) in Hv.
    rewrite length_fmap, calculate_sma_length in Hv. by destruct closes.
Qed.

End YoungSeries.

Lemma young_series_witness :
  Charting.detect_trend
    (Charting.frame_of (Charting.add_all_indicators (Some Charting.sample_bars)))
  <> Charting.STRONG_DOWNTREND.
Proof.
  apply young_series_is_never_in_strong_downtrend.
  - vm_compute. lia.
  - repeat constructor; discriminate.
Defined.
